(** * Donation inventory backend (app.py): validation and persistence

    A shallow embedding of [validate_payload], [parse_iso_date] and the
    create / update / delete request handlers of app.py, together with the
    properties of the validation and persistence contract. *)

From Stdlib Require Import ZArith NArith String Ascii List Sorted Lia.
From Stdlib Require Import Floats.SpecFloat.
From stdpp Require Import gmap strings list fin_maps sorting.

Local Open Scope Z_scope.

(** ** Python values *)

(** A Python [str] is a sequence of Unicode code points. *)
Definition pystr := list N.

(** A string literal of the source, as a [pystr]. *)
Definition u (s : string) : pystr :=
  map N_of_ascii (list_ascii_of_string s).

(** The values [request.get_json()] can put in a dict: JSON null, booleans,
    integers, floats, strings, arrays and objects. *)
#[local] Set Warnings "-register-all".
Inductive pyval :=
  | PNone
  | PBool (b : bool)
  | PInt (z : Z)
  | PFloat (f : spec_float)
  | PStr (s : pystr)
  | PList (l : list pyval)
  | PDict (d : list (string * pyval)).

(** The instances of Python's [int]: [bool] is a subclass of [int]. *)
Inductive pyint :=
  | Int (z : Z)
  | Bool (b : bool).

(** The integer value of an [int] instance: [True] is 1, [False] is 0. *)
Definition int_value (i : pyint) : Z :=
  match i with
  | Int z => z
  | Bool b => Z.b2z b
  end.

(** [isinstance(v, int)], returning the instance. *)
Definition isinstance_int (v : pyval) : option pyint :=
  match v with
  | PInt z => Some (Int z)
  | PBool b => Some (Bool b)
  | _ => None
  end.

(** [isinstance(v, str)], returning the instance. *)
Definition isinstance_str (v : pyval) : option pystr :=
  match v with
  | PStr s => Some s
  | _ => None
  end.

(** A surrogate code point: a [str] that holds one has no UTF-8 encoding. *)
Definition is_surrogate (c : N) : bool := ((55296 <=? c) && (c <=? 57343))%N.

(** ** [str.strip] *)

(** [str.isspace] on one code point (the interpreter's whitespace table). *)
Definition isspace (c : N) : bool :=
  ((9 <=? c) && (c <=? 13) || (28 <=? c) && (c <=? 32)
   || (c =? 133) || (c =? 160) || (c =? 5760)
   || (8192 <=? c) && (c <=? 8202)
   || (c =? 8232) || (c =? 8233) || (c =? 8239) || (c =? 8287)
   || (c =? 12288))%N.

Fixpoint lstrip (s : pystr) : pystr :=
  match s with
  | [] => []
  | c :: s' => if isspace c then lstrip s' else s
  end.

Definition rstrip (s : pystr) : pystr := reverse (lstrip (reverse s)).

Definition strip (s : pystr) : pystr := rstrip (lstrip s).

(** ** Aborting computations *)

(** [abort(code, description=...)] raises; a computation either returns a
    value or aborts with a status code and a description. *)
Inductive result (A : Type) :=
  | Ok (a : A)
  | Abort (code : Z) (description : string).
Arguments Ok {A} a.
Arguments Abort {A} code description.

Definition bind {A B} (r : result A) (k : A -> result B) : result B :=
  match r with
  | Ok a => k a
  | Abort c d => Abort c d
  end.

Notation "'let!' x ':=' r 'in' k" := (bind r (fun x => k))
  (at level 10, x name, r at level 100, k at level 200).

(** ** Dates *)

Record date := Date { year : Z; month : Z; day : Z }.

Record datetime := Datetime {
  datetime_date : date;   (* datetime.date() *)
  hour : Z;
  minute : Z;
  second : Z;
  microsecond : Z;
  utcoffset : option Z;   (* microseconds east of UTC, None when naive *)
}.

(** [date.isoformat()]: the year on four digits, month and day on two. *)
Definition digit (n : Z) : N := Z.to_N (48 + n mod 10).

Definition isoformat (d : date) : pystr :=
  [digit (year d / 1000); digit (year d / 100); digit (year d / 10);
   digit (year d); 45%N;
   digit (month d / 10); digit (month d); 45%N;
   digit (day d / 10); digit (day d)].

(** ** The request payload and the validated field set *)

(** [payload.get(key)]: [None] when the key is absent, and also when it is
    present with the value null. *)
Definition get (payload : gmap string pyval) (key : string) : pyval :=
  match payload !! key with
  | Some v => v
  | None => PNone
  end.

(** The dict [out] built by [validate_payload]: at most the four business
    keys, each with a value of its validated type. *)
Record fields := Fields {
  out_donor_name : option pystr;
  out_donation_type : option pystr;
  out_quantity_or_amount : option pyint;
  out_date : option date;
}.

Definition allowed_types : list pystr :=
  [u "money"; u "food"; u "clothing"; u "other"].

Section Validation.

(** [datetime.fromisoformat] of the standard library; [None] stands for
    its [ValueError]. *)
Variable fromisoformat : pystr -> option datetime.

Definition parse_iso_date (value : pyval) : result date :=
  match isinstance_str value with
  | None =>
      Abort 400 "date must be a string in ISO format (YYYY-MM-DD)"
  | Some s =>
      match fromisoformat s with
      | Some dt => Ok (datetime_date dt)
      | None => Abort 400 "Invalid date format; expected ISO (YYYY-MM-DD)"
      end
  end.

Section Payload.

Variable payload : gmap string pyval.
Variable partial : bool.

Definition get_str (key : string) : result (option pystr) :=
  match get payload key with
  | PNone =>
      if negb partial
      then Abort 400 ("Missing required field: " +:+ key)
      else Ok None
  | v =>
      match isinstance_str v with
      | Some s =>
          match strip s with
          | [] => Abort 400 (key +:+ " must be a non-empty string")
          | t => Ok (Some t)
          end
      | None => Abort 400 (key +:+ " must be a non-empty string")
      end
  end.

Definition get_int (key : string) : result (option pyint) :=
  match get payload key with
  | PNone =>
      if negb partial
      then Abort 400 ("Missing required field: " +:+ key)
      else Ok None
  | v =>
      match isinstance_int v with
      | Some i =>
          if int_value i <? 1
          then Abort 400 (key +:+ " must be a positive integer")
          else Ok (Some i)
      | None => Abort 400 (key +:+ " must be a positive integer")
      end
  end.

(** The check of [donation_type] against [allowed_types]. *)
Definition get_donation_type : result (option pystr) :=
  let! donation_type := get_str "donation_type" in
  match donation_type with
  | Some t =>
      if bool_decide (t ∈ allowed_types)
      then Ok (Some t)
      else Abort 400
        "donation_type must be one of ['clothing', 'food', 'money', 'other']"
  | None => Ok None
  end.

(** The [date] entry: the lookup, the presence test and [parse_iso_date]. *)
Definition get_date : result (option date) :=
  match get payload "date" with
  | PNone =>
      if negb partial
      then Abort 400 "Missing required field: date"
      else Ok None
  | date_str => let! d := parse_iso_date date_str in Ok (Some d)
  end.

Definition validate_payload : result fields :=
  let! donor_name := get_str "donor_name" in
  let! donation_type := get_donation_type in
  let! qty := get_int "quantity_or_amount" in
  let! d := get_date in
  Ok (Fields donor_name donation_type qty d).

End Payload.

End Validation.

(** ** The model and the table *)

Module Donation.

(** One row of the table [donations]; [created_at] and [updated_at] are
    instants of the UTC clock, in microseconds. *)
Record t := Row {
  id : Z;
  donor_name : pystr;
  donation_type : pystr;
  quantity_or_amount : Z;
  date : date;
  created_at : Z;
  updated_at : Z;
}.

Definition set_donor_name (v : pystr) (r : t) : t :=
  Row (id r) v (donation_type r) (quantity_or_amount r) (date r)
      (created_at r) (updated_at r).

Definition set_donation_type (v : pystr) (r : t) : t :=
  Row (id r) (donor_name r) v (quantity_or_amount r) (date r)
      (created_at r) (updated_at r).

(** The column is [db.Integer]: an [int] instance is stored as its
    integer value. *)
Definition set_quantity_or_amount (v : pyint) (r : t) : t :=
  Row (id r) (donor_name r) (donation_type r) (int_value v) (date r)
      (created_at r) (updated_at r).

Definition set_date v (r : t) : t :=
  Row (id r) (donor_name r) (donation_type r) (quantity_or_amount r) v
      (created_at r) (updated_at r).

Definition set_updated_at (v : Z) (r : t) : t :=
  Row (id r) (donor_name r) (donation_type r) (quantity_or_amount r)
      (date r) (created_at r) v.

(** The JSON object of [to_dict]; the timestamps are not part of it. *)
Record dict := Dict {
  d_id : Z;
  d_donor_name : pystr;
  d_donation_type : pystr;
  d_quantity_or_amount : Z;
  d_date : pystr;
}.

Definition to_dict (self : t) : dict :=
  Dict (id self) (donor_name self) (donation_type self)
       (quantity_or_amount self) (isoformat (date self)).

End Donation.

(** The table [donations], keyed by its primary key. *)
Abbreviation table := (gmap Z Donation.t).

(** The primary key is [db.Column(db.Integer, primary_key=True)] on the
    [sqlite:///] engine.  The model sets no [sqlite_autoincrement], so the
    column is an INTEGER PRIMARY KEY without the AUTOINCREMENT keyword: on
    insert the engine assigns one more than the largest id now in the table,
    and 1 in an empty table. *)
Definition next_id (tb : table) : Z :=
  match (map_to_list tb).*1 with
  | [] => 1
  | k :: ks => foldr Z.max k ks + 1
  end.

(** ** Requests and responses *)

(** A request: whether its content type is JSON, and the JSON object of its
    body ([validate_payload] takes a dict). *)
Record request := Request {
  is_json : bool;
  get_json : gmap string pyval;
}.

Inductive body :=
  | Description (d : string)       (* the description of an abort *)
  | Json (d : Donation.dict)       (* jsonify(row.to_dict()) *)
  | Empty.

Record response := Response { status : Z; content : body }.

(** [data[key]] on the validated dict: a [KeyError] when the key is absent,
    which the framework turns into status 500. *)
Definition getitem {A} (o : option A) (key : string) : result A :=
  match o with
  | Some a => Ok a
  | None => Abort 500 ("KeyError: " +:+ key)
  end.

Definition require_json (req : request) : result unit :=
  if negb (is_json req)
  then Abort 400 "Request must be application/json"
  else Ok tt.

(** An exception that no handler catches: the framework answers 500 with
    this description, and the session is rolled back. *)
Definition internal_server_error : string := "Internal Server Error".

(** What the SQLite driver binds as a parameter: an integer within 64 bits
    (else it raises [OverflowError]) and a string that has a UTF-8 encoding
    (else [UnicodeEncodeError]). *)
Definition fits_integer (z : Z) : bool :=
  (- 2 ^ 63 <=? z) && (z <=? 2 ^ 63 - 1).

Definition encodable (s : pystr) : bool :=
  forallb (fun c => negb (is_surrogate c)) s.

(** The values of a validated dict that a statement binds. *)
Definition storable (data : fields) : bool :=
  from_option encodable true (out_donor_name data)
  && from_option encodable true (out_donation_type data)
  && from_option (fun q => fits_integer (int_value q)) true
       (out_quantity_or_amount data).

(** [db.session.commit()]: the flush sends the statement with the values
    assigned from [data]; when the driver refuses one of them the exception
    is not caught. *)
Definition commit (data : fields) : result unit :=
  if storable data then Ok tt else Abort 500 internal_server_error.

(** The row id that the engine gives to an inserted row.  Once the largest
    id is 2^63 - 1 the engine tries unused ids at random and gives up with
    an error when it finds none; that random choice is outside the model,
    which has the insert fail there. *)
Definition insert_id (tb : table) : result Z :=
  if fits_integer (next_id tb) then Ok (next_id tb)
  else Abort 500 internal_server_error.

(** [Donation.query.get(donation_id)] followed by the 404 test; the lookup
    binds [donation_id]. *)
Definition query_get (tb : table) (donation_id : Z) : result Donation.t :=
  if negb (fits_integer donation_id) then Abort 500 internal_server_error
  else
    match tb !! donation_id with
    | Some row => Ok row
    | None => Abort 404 "Donation not found"
    end.

(** A view function run by the framework on a table: an abort leaves the
    session uncommitted, so the table stays as it was, and becomes the error
    response. *)
Definition serve (tb : table) (view : result (response * table))
  : response * table :=
  match view with
  | Ok (r, tb') => (r, tb')
  | Abort code d => (Response code (Description d), tb)
  end.

Section Routes.

Variable fromisoformat : pystr -> option datetime.

(** POST /api/donations; [t1] and [t2] are the two readings of
    [datetime.utcnow()]. *)
Definition create_donation (req : request) (t1 t2 : Z) (tb : table)
  : response * table :=
  serve tb (
    let! _ := require_json req in
    let! data := validate_payload fromisoformat (get_json req) false in
    let! donor_name := getitem (out_donor_name data) "donor_name" in
    let! donation_type := getitem (out_donation_type data) "donation_type" in
    let! qty := getitem (out_quantity_or_amount data) "quantity_or_amount" in
    let! d := getitem (out_date data) "date" in
    let! _ := commit data in
    let! i := insert_id tb in
    let row :=
      Donation.Row i donor_name donation_type (int_value qty) d t1 t2 in
    Ok (Response 201 (Json (Donation.to_dict row)),
        <[Donation.id row := row]> tb)).

(** The four conditional assignments of [update_donation]. *)
Definition apply_fields (data : fields) (row : Donation.t) : Donation.t :=
  let row := match out_donor_name data with
             | Some v => Donation.set_donor_name v row
             | None => row
             end in
  let row := match out_donation_type data with
             | Some v => Donation.set_donation_type v row
             | None => row
             end in
  let row := match out_quantity_or_amount data with
             | Some v => Donation.set_quantity_or_amount v row
             | None => row
             end in
  match out_date data with
  | Some v => Donation.set_date v row
  | None => row
  end.

(** PUT /api/donations/<donation_id>; [now] is the reading of
    [datetime.utcnow()]. *)
Definition update_donation (donation_id : Z) (req : request) (now : Z)
  (tb : table) : response * table :=
  serve tb (
    let! _ := require_json req in
    let! data := validate_payload fromisoformat (get_json req) true in
    let! row := query_get tb donation_id in
    let row := apply_fields data row in
    let row := Donation.set_updated_at now row in
    let! _ := commit data in
    Ok (Response 200 (Json (Donation.to_dict row)),
        <[donation_id := row]> tb)).

(** DELETE /api/donations/<donation_id>. *)
Definition delete_donation (donation_id : Z) (tb : table)
  : response * table :=
  serve tb (
    let! _ := query_get tb donation_id in
    Ok (Response 204 Empty, delete donation_id tb)).

End Routes.

(** The order of [Donation.id.desc()]: larger ids first. *)
Definition id_desc (r1 r2 : Donation.t) : Prop :=
  Donation.id r2 <= Donation.id r1.

#[global] Instance id_desc_dec : RelDecision id_desc :=
  fun r1 r2 => Z_le_dec (Donation.id r2) (Donation.id r1).

(** GET /api/donations: all rows, ordered by [Donation.id.desc()], each as
    its [to_dict]. *)
Definition list_donations (tb : table) : list Donation.dict :=
  let rows := merge_sort id_desc (map_to_list tb).*2 in
  Donation.to_dict <$> rows.

(** ** The date parser *)

(** [datetime.fromisoformat] as the interpreter implements it (Python
    3.11), on the UTF-8 bytes of the string: the date is YYYY-MM-DD or
    YYYYMMDD, or an ISO week date YYYY-Www[-D] or YYYYWww[D]; after it may
    come one separator character, whichever it is, and a time
    HH[:MM[:SS[.ffffff]]] with an optional offset from UTC. *)
Module Iso.

(** The UTF-8 encoding of one code point; a surrogate has none. *)
Definition utf8_char (c : N) : option (list N) :=
  (if c <? 128 then Some [c]
   else if c <? 2048 then Some [192 + c / 64; 128 + c mod 64]
   else if c <? 65536 then
     if is_surrogate c then None
     else Some [224 + c / 4096; 128 + (c / 64) mod 64; 128 + c mod 64]
   else if c <? 1114112 then
     Some [240 + c / 262144; 128 + (c / 4096) mod 64;
           128 + (c / 64) mod 64; 128 + c mod 64]
   else None)%N.

Fixpoint utf8 (s : pystr) : option (list N) :=
  match s with
  | [] => Some []
  | c :: s' =>
      match utf8_char c, utf8 s' with
      | Some b, Some bs => Some (b ++ bs)
      | _, _ => None
      end
  end.

(** [_sanitize_isoformat_str]: a surrogate at the first of the positions
    7, 8 and 10 that holds one is replaced by [T]. *)
Definition sanitize (s : pystr) : option pystr :=
  if (length s <? 7)%nat then None
  else
    let surrogate_at pos :=
      match s !! pos with
      | Some c => is_surrogate c
      | None => false
      end in
    Some (if surrogate_at 7%nat then <[7%nat := 84%N]> s
          else if surrogate_at 8%nat then <[8%nat := 84%N]> s
          else if surrogate_at 10%nat then <[10%nat := 84%N]> s
          else s).

(** The byte at an index of a C string: 0 at its end. *)
Definition at_ (b : list N) (i : nat) : N := nth i b 0%N.

Definition is_digit (c : N) : bool := ((48 <=? c) && (c <=? 57))%N.

(** [parse_digits]: [num_digits] decimal digits from index [p], added to
    [var]; the value and the index after them. *)
Fixpoint parse_digits (b : list N) (p : nat) (var : Z) (num_digits : nat)
  : option (Z * nat) :=
  match num_digits with
  | O => Some (var, p)
  | S n =>
      if is_digit (at_ b p)
      then parse_digits b (S p) (10 * var + (Z.of_N (at_ b p) - 48)) n
      else None
  end.

(** The index after the run of digits that starts at [idx] and stays
    below [len]. *)
Fixpoint digits_end (b : list N) (idx : nat) (len : nat) (fuel : nat) : nat :=
  match fuel with
  | O => idx
  | S fuel' =>
      if (idx <? len)%nat && is_digit (at_ b idx)
      then digits_end b (S idx) len fuel'
      else idx
  end.

(** [_find_isoformat_datetime_separator]; [None] is its -1. *)
Definition find_isoformat_datetime_separator (b : list N) (len : nat)
  : option nat :=
  if (len =? 7)%nat then Some 7%nat
  else if (at_ b 4 =? 45)%N then
    if (at_ b 5 =? 87)%N then
      if (len <? 8)%nat then None
      else if (8 <? len)%nat && (at_ b 8 =? 45)%N then
        if (len =? 9)%nat then None
        else if (10 <? len)%nat && is_digit (at_ b 10) then Some 8%nat
        else Some 10%nat
      else Some 8%nat
    else Some 10%nat
  else if (at_ b 4 =? 87)%N then
    let idx := digits_end b 7 len len in
    if (idx <? 9)%nat then Some idx
    else if Nat.even idx then Some 7%nat
    else Some 8%nat
  else Some 8%nat.

Definition is_leap (y : Z) : bool :=
  (y mod 4 =? 0) && (negb (y mod 100 =? 0) || (y mod 400 =? 0)).

Definition days_in_month (y m : Z) : Z :=
  if (m =? 2) && is_leap y then 29
  else nth (Z.to_nat m) [0; 31; 28; 31; 30; 31; 30; 31; 31; 30; 31; 30; 31] 0.

Definition days_before_month (y m : Z) : Z :=
  nth (Z.to_nat m) [0; 0; 31; 59; 90; 120; 151; 181; 212; 243; 273; 304; 334] 0
  + (if (2 <? m) && is_leap y then 1 else 0).

Definition days_before_year (y : Z) : Z :=
  let y := y - 1 in y * 365 + y / 4 - y / 100 + y / 400.

Definition ymd_to_ord (y m d : Z) : Z :=
  days_before_year y + days_before_month y m + d.

Definition weekday (y m d : Z) : Z := (ymd_to_ord y m d + 6) mod 7.

Definition iso_week1_monday (y : Z) : Z :=
  let first_day := ymd_to_ord y 1 1 in
  let first_weekday := (first_day + 6) mod 7 in
  let week1_monday := first_day - first_weekday in
  if 3 <? first_weekday then week1_monday + 7 else week1_monday.

Definition DI400Y : Z := 146097.
Definition DI100Y : Z := 36524.
Definition DI4Y : Z := 1461.

Definition ord_to_ymd (ordinal : Z) : Z * Z * Z :=
  let ordinal := ordinal - 1 in
  let n400 := ordinal / DI400Y in
  let n := ordinal mod DI400Y in
  let y := n400 * 400 + 1 in
  let n100 := n / DI100Y in
  let n := n mod DI100Y in
  let n4 := n / DI4Y in
  let n := n mod DI4Y in
  let n1 := n / 365 in
  let n := n mod 365 in
  let y := y + n100 * 100 + n4 * 4 + n1 in
  if (n1 =? 4) || (n100 =? 4) then (y - 1, 12, 31)
  else
    let leapyear := (n1 =? 3) && (negb (n4 =? 24) || (n100 =? 3)) in
    let m := Z.shiftr (n + 50) 5 in
    let preceding :=
      nth (Z.to_nat m) [0; 0; 31; 59; 90; 120; 151; 181; 212; 243; 273; 304; 334] 0
      + (if (2 <? m) && leapyear then 1 else 0) in
    if n <? preceding
    then (y, m - 1, n - (preceding - days_in_month y (m - 1)) + 1)
    else (y, m, n - preceding + 1).

(** [iso_to_ymd].  The year read from four digits is 0 at least; for the
    year 0 the ordinals are not positive and the conversion yields no
    month, so that no date results. *)
Definition iso_to_ymd (iso_year iso_week iso_day : Z) : option (Z * Z * Z) :=
  let week_ok :=
    if (0 <? iso_week) && (iso_week <? 53) then true
    else if iso_week =? 53 then
      let first_weekday := weekday iso_year 1 1 in
      (first_weekday =? 3) || ((first_weekday =? 2) && is_leap iso_year)
    else false in
  if negb week_ok then None
  else if negb ((0 <? iso_day) && (iso_day <? 8)) then None
  else if iso_year <? 1 then None
  else
    let day_1 := iso_week1_monday iso_year in
    let day_offset := (iso_week - 1) * 7 + iso_day - 1 in
    Some (ord_to_ymd (day_1 + day_offset)).

(** [parse_isoformat_date], on the bytes before index [len]. *)
Definition parse_isoformat_date (b : list N) (len : nat)
  : option (Z * Z * Z) :=
  match parse_digits b 0 0 4 with
  | None => None
  | Some (y, p) =>
      let uses_separator := (at_ b p =? 45)%N in
      let p := if uses_separator then S p else p in
      if (at_ b p =? 87)%N then
        match parse_digits b (S p) 0 2 with
        | None => None
        | Some (iso_week, p) =>
            if (p <? len)%nat then
              if uses_separator && negb (at_ b p =? 45)%N then None
              else
                let p := if uses_separator then S p else p in
                match parse_digits b p 0 1 with
                | None => None
                | Some (iso_day, _) => iso_to_ymd y iso_week iso_day
                end
            else iso_to_ymd y iso_week 1
        end
      else
        match parse_digits b p 0 2 with
        | None => None
        | Some (m, p) =>
            if uses_separator && negb (at_ b p =? 45)%N then None
            else
              let p := if uses_separator then S p else p in
              match parse_digits b p 0 2 with
              | None => None
              | Some (d, _) => Some (y, m, d)
              end
        end
  end.

(** The fraction of [parse_hh_mm_ss_ff], from index [p]: at most six
    digits are read, further digits are skipped; the flag tells whether
    the string goes on after them. *)
Definition parse_fraction (t : list N) (p p_end : nat) : option (bool * Z) :=
  let len_remains := (p_end - p)%nat in
  let to_parse := Nat.min 6 len_remains in
  match parse_digits t p 0 to_parse with
  | None => None
  | Some (us, p) =>
      let us := us * 10 ^ (6 - Z.of_nat to_parse) in
      let p := digits_end t p (S (length t)) (length t) in
      Some (negb (at_ t p =? 0)%N, us)
  end.

(** One round of the loop of [parse_hh_mm_ss_ff] after its two digits:
    the character [c] that follows them, at index [p]. *)
Inductive after_field :=
  | Stop (more : bool)        (* the end is reached *)
  | Next (p : nat)            (* go on with the next field at [p] *)
  | Fraction (p : nat)        (* a fraction starts at [p] *)
  | Malformed.

Definition after_digits (t : list N) (p p_end : nat) (has_separator : bool)
  : after_field :=
  let c := at_ t p in
  if (p_end <=? S p)%nat then Stop (negb (c =? 0)%N)
  else if has_separator && (c =? 58)%N then Next (S p)
  else if (c =? 46)%N || (c =? 44)%N then Fraction (S p)
  else if negb has_separator then Next p
  else Malformed.

(** [parse_hh_mm_ss_ff] on the bytes from [p] to [p_end]: whether the
    string goes on after what was read, and hour, minute, second and
    microsecond. *)
Definition parse_hh_mm_ss_ff (t : list N) (p p_end : nat)
  : option (bool * (Z * Z * Z * Z)) :=
  let fraction p h m s :=
    match parse_fraction t p p_end with
    | Some (more, us) => Some (more, (h, m, s, us))
    | None => None
    end in
  match parse_digits t p 0 2 with
  | None => None
  | Some (h, p) =>
      let has_separator := (at_ t p =? 58)%N in
      match after_digits t p p_end has_separator with
      | Stop more => Some (more, (h, 0, 0, 0))
      | Fraction p => fraction p h 0 0
      | Malformed => None
      | Next p =>
          match parse_digits t p 0 2 with
          | None => None
          | Some (m, p) =>
              match after_digits t p p_end has_separator with
              | Stop more => Some (more, (h, m, 0, 0))
              | Fraction p => fraction p h m 0
              | Malformed => None
              | Next p =>
                  match parse_digits t p 0 2 with
                  | None => None
                  | Some (s, p) =>
                      match after_digits t p p_end has_separator with
                      | Stop more => Some (more, (h, m, s, 0))
                      | Fraction p => fraction p h m s
                      | Malformed => None
                      | Next p => fraction p h m s
                      end
                  end
              end
          end
      end
  end.

(** The index of the first of [Z], [+] and [-] among the [len] bytes of
    the time, or their end; the scan looks at the first byte even of an
    empty time. *)
Fixpoint find_tz (t : list N) (i len : nat) (fuel : nat) : nat :=
  match fuel with
  | O => i
  | S fuel' =>
      let c := at_ t i in
      if (c =? 90)%N || (c =? 43)%N || (c =? 45)%N then i
      else if (S i <? len)%nat then find_tz t (S i) len fuel'
      else S i
  end.

(** [parse_isoformat_time]: hour, minute, second, microsecond, and the
    offset from UTC in seconds and microseconds when there is one. *)
Definition parse_isoformat_time (t : list N) (len : nat)
  : option (Z * Z * Z * Z * option (Z * Z)) :=
  let tzinfo_pos := find_tz t 0 len (S len) in
  match parse_hh_mm_ss_ff t 0 tzinfo_pos with
  | None => None
  | Some (more, (h, m, s, us)) =>
      if (tzinfo_pos =? len)%nat then
        if more then None else Some (h, m, s, us, None)
      else if (at_ t tzinfo_pos =? 90)%N then
        if (at_ t (S tzinfo_pos) =? 0)%N then Some (h, m, s, us, Some (0, 0))
        else None
      else
        let tzsign := if (at_ t tzinfo_pos =? 45)%N then -1 else 1 in
        match parse_hh_mm_ss_ff t (S tzinfo_pos) len with
        | Some (false, (th, tm, ts, tus)) =>
            Some (h, m, s, us,
                  Some (tzsign * (th * 3600 + tm * 60 + ts), tzsign * tus))
        | _ => None
        end
  end.

(** The number of bytes of the character that starts with byte [c]. *)
Definition char_width (c : N) : nat :=
  if (N.land c 128 =? 0)%N then 1%nat
  else if (N.land c 240 =? 224)%N then 3%nat
  else if (N.land c 240 =? 240)%N then 4%nat
  else 2%nat.

(** The offset of a [timezone], in microseconds: UTC when the seconds are
    0, and otherwise strictly within a day. *)
Definition tzinfo_from_isoformat_results (tz : option (Z * Z))
  : option (option Z) :=
  match tz with
  | None => Some None
  | Some (tzoffset, tz_useconds) =>
      if tzoffset =? 0 then Some (Some 0)
      else
        let offset := tzoffset * 1000000 + tz_useconds in
        if (-86400000000 <? offset) && (offset <? 86400000000)
        then Some (Some offset)
        else None
  end.

(** The checks of the [datetime] constructor. *)
Definition check_date_args (y m d : Z) : bool :=
  (1 <=? y) && (y <=? 9999) && (1 <=? m) && (m <=? 12)
  && (1 <=? d) && (d <=? days_in_month y m).

Definition check_time_args (h m s us : Z) : bool :=
  (0 <=? h) && (h <=? 23) && (0 <=? m) && (m <=? 59)
  && (0 <=? s) && (s <=? 59) && (0 <=? us) && (us <=? 999999).

(** [datetime.fromisoformat] (Python 3.11); [None] is its [ValueError]. *)
Definition fromisoformat (date_string : pystr) : option datetime :=
  match sanitize date_string with
  | None => None
  | Some clean =>
      match utf8 clean with
      | None => None
      | Some b =>
          let len := length b in
          match find_isoformat_datetime_separator b len with
          | None => None
          | Some separator_location =>
              match parse_isoformat_date b separator_location with
              | None => None
              | Some (y, m, d) =>
                  let time :=
                    if (separator_location <? len)%nat then
                      let p := (separator_location
                                + char_width (at_ b separator_location))%nat in
                      parse_isoformat_time (drop p b) (len - p)
                    else Some (0, 0, 0, 0, None) in
                  match time with
                  | None => None
                  | Some (h, mi, s, us, tz) =>
                      match tzinfo_from_isoformat_results tz with
                      | None => None
                      | Some off =>
                          if check_date_args y m d && check_time_args h mi s us
                          then Some (Datetime (Date y m d) h mi s us off)
                          else None
                      end
                  end
              end
          end
      end
  end.

End Iso.

(** ** Specification vocabulary *)

(** A whitespace character. *)
Definition whitespace (c : N) : Prop := isspace c = true.

(** [t] is [s] with its leading and trailing whitespace removed: what is cut
    on each side is whitespace, and [t] neither starts nor ends with it. *)
Definition trimmed (s t : pystr) : Prop :=
  exists l r,
    s = l ++ t ++ r
    /\ Forall whitespace l
    /\ Forall whitespace r
    /\ (forall c, head t = Some c -> isspace c = false)
    /\ (forall c, last t = Some c -> isspace c = false).

(** The invariant of a persisted record. *)
Definition row_ok (r : Donation.t) : Prop :=
  1 <= Donation.quantity_or_amount r
  /\ Donation.donation_type r ∈ allowed_types
  /\ Donation.created_at r <= Donation.updated_at r.

(** Every record of the table satisfies [row_ok] and was last written no
    later than [now]. *)
Definition store_ok (now : Z) (tb : table) : Prop :=
  forall k r, tb !! k = Some r -> row_ok r /\ Donation.updated_at r <= now.

(** What holds of a persisted record whatever the clock reads. *)
Definition row_valid (r : Donation.t) : Prop :=
  1 <= Donation.quantity_or_amount r
  /\ Donation.donation_type r ∈ allowed_types.

(** The tables the handlers can produce from the empty table. *)
Inductive reachable (fromisoformat : pystr -> option datetime)
  : table -> Prop :=
  | reach_init : reachable fromisoformat ∅
  | reach_create tb req t1 t2 :
      reachable fromisoformat tb ->
      reachable fromisoformat (create_donation fromisoformat req t1 t2 tb).2
  | reach_update tb donation_id req t :
      reachable fromisoformat tb ->
      reachable fromisoformat
        (update_donation fromisoformat donation_id req t tb).2
  | reach_delete tb donation_id :
      reachable fromisoformat tb ->
      reachable fromisoformat (delete_donation donation_id tb).2.

(** The tables produced while the clock does not run backwards: the
    readings of [datetime.utcnow()] are taken in chronological order, the
    last one at the instant [now]. *)
Inductive chronological (fromisoformat : pystr -> option datetime)
  : Z -> table -> Prop :=
  | chrono_init now : chronological fromisoformat now ∅
  | chrono_create now tb req t1 t2 :
      chronological fromisoformat now tb -> now <= t1 -> t1 <= t2 ->
      chronological fromisoformat t2
        (create_donation fromisoformat req t1 t2 tb).2
  | chrono_update now tb donation_id req t :
      chronological fromisoformat now tb -> now <= t ->
      chronological fromisoformat t
        (update_donation fromisoformat donation_id req t tb).2
  | chrono_delete now tb donation_id :
      chronological fromisoformat now tb ->
      chronological fromisoformat now (delete_donation donation_id tb).2.

(** The id that a response to a successful create carries. *)
Definition created_id (r : response) : option Z :=
  match content r with
  | Json d => if status r =? 201 then Some (Donation.d_id d) else None
  | _ => None
  end.

(** The rejection of a computation, if any: status code and description. *)
Definition failure {A} (r : result A) : option (Z * string) :=
  match r with
  | Ok _ => None
  | Abort c d => Some (c, d)
  end.

(** The business fields, in the order in which [validate_payload] handles
    them. *)
Definition field_order : list string :=
  ["donor_name"; "donation_type"; "quantity_or_amount"; "date"].

(** The violation that the validator finds in one field taken alone. *)
Definition field_failure (fromisoformat : pystr -> option datetime)
  (payload : gmap string pyval) (partial : bool) (key : string)
  : option (Z * string) :=
  if String.eqb key "donor_name" then
    failure (get_str payload partial "donor_name")
  else if String.eqb key "donation_type" then
    failure (get_donation_type payload partial)
  else if String.eqb key "quantity_or_amount" then
    failure (get_int payload partial "quantity_or_amount")
  else if String.eqb key "date" then
    failure (get_date fromisoformat payload partial)
  else None.


(** [key in data] on the validated dict. *)
Definition contains (data : fields) (key : string) : bool :=
  if String.eqb key "donor_name" then bool_decide (is_Some (out_donor_name data))
  else if String.eqb key "donation_type" then
    bool_decide (is_Some (out_donation_type data))
  else if String.eqb key "quantity_or_amount" then
    bool_decide (is_Some (out_quantity_or_amount data))
  else if String.eqb key "date" then bool_decide (is_Some (out_date data))
  else false.

(** One request to the service, with the clock readings it takes. *)
Inductive op :=
  | Create (req : request) (t1 t2 : Z)
  | Update (donation_id : Z) (req : request) (now : Z)
  | Delete (donation_id : Z).

Definition is_delete (o : op) : bool :=
  match o with
  | Delete _ => true
  | _ => false
  end.

Definition step (fromisoformat : pystr -> option datetime) (o : op)
  (tb : table) : response * table :=
  match o with
  | Create req t1 t2 => create_donation fromisoformat req t1 t2 tb
  | Update donation_id req now =>
      update_donation fromisoformat donation_id req now tb
  | Delete donation_id => delete_donation donation_id tb
  end.

(** The responses to a sequence of requests, and the table they leave. *)
Fixpoint run (fromisoformat : pystr -> option datetime) (ops : list op)
  (tb : table) : list response * table :=
  match ops with
  | [] => ([], tb)
  | o :: ops' =>
      let (r, tb') := step fromisoformat o tb in
      let (rs, tb'') := run fromisoformat ops' tb' in
      (r :: rs, tb'')
  end.

(** The ids assigned by the creates of a sequence of requests, in order. *)
Fixpoint assigned_ids (rs : list response) : list Z :=
  match rs with
  | [] => []
  | r :: rs' =>
      match created_id r with
      | Some i => i :: assigned_ids rs'
      | None => assigned_ids rs'
      end
  end.

(** The fields as the contract of the validator words them. *)

(** A string with a character that is not whitespace. *)
Definition nonblank (s : pystr) : Prop :=
  exists c, c ∈ s /\ isspace c = false.


(** A string that is one of the allowed types once trimmed. *)
Definition valid_donation_type (v : pyval) : Prop :=
  exists s ty, v = PStr s /\ ty ∈ allowed_types /\ trimmed s ty.







(** The suffix of a full ISO timestamp: [T] and the time HH:MM:SS. *)
Definition timestamp_suffix (h m s : Z) : pystr :=
  [84%N; digit (h / 10); digit h; 58%N; digit (m / 10); digit m; 58%N;
   digit (s / 10); digit s].

(** A string that starts with four digits, a dash, two digits, a dash and
    two digits: the shape YYYY-MM-DD, with or without a suffix. *)
Definition ymd_shaped (s : pystr) : bool :=
  match s with
  | y1 :: y2 :: y3 :: y4 :: d1 :: m1 :: m2 :: d2 :: a1 :: a2 :: _ =>
      forallb Iso.is_digit [y1; y2; y3; y4; m1; m2; a1; a2]
      && (d1 =? 45)%N && (d2 =? 45)%N
  | _ => false
  end.

(** Every row is stored under its own id. *)
Definition well_keyed (tb : table) : Prop :=
  forall k r, tb !! k = Some r -> Donation.id r = k.

(** The name of a stored record is not empty and is its own [strip]. *)
Definition name_ok (r : Donation.t) : Prop :=
  Donation.donor_name r <> []
  /\ strip (Donation.donor_name r) = Donation.donor_name r.

(** The JSON object of a response, sent back as the body of a request. *)
Definition as_payload (d : Donation.dict) : gmap string pyval :=
  <["id" := PInt (Donation.d_id d)]>
  (<["donor_name" := PStr (Donation.d_donor_name d)]>
   (<["donation_type" := PStr (Donation.d_donation_type d)]>
    (<["quantity_or_amount" := PInt (Donation.d_quantity_or_amount d)]>
     (<["date" := PStr (Donation.d_date d)]> ∅)))).

(** Requests used in the examples. *)
Definition alice (date_str : string) : request :=
  Request true
    (<["donor_name" := PStr (u "Alice")]>
     (<["donation_type" := PStr (u "food")]>
      (<["quantity_or_amount" := PInt 3]>
       (<["date" := PStr (u date_str)]> ∅)))).

Definition alice_row (i : Z) : Donation.t :=
  Donation.Row i (u "Alice") (u "food") 3 (Date 2024 1 15) 0 0.

(** * Properties *)

Example fromisoformat_date :
  Iso.fromisoformat (u "2024-01-15")
  = Some (Datetime (Date 2024 1 15) 0 0 0 0 None).
Proof. reflexivity. Qed.

Example fromisoformat_timestamp :
  Iso.fromisoformat (u "2024-01-15T10:00:00")
  = Some (Datetime (Date 2024 1 15) 10 0 0 0 None).
Proof. reflexivity. Qed.

Example fromisoformat_bad :
  Iso.fromisoformat (u "15/01/2024") = None
  /\ Iso.fromisoformat (u "2024-02-30") = None
  /\ Iso.fromisoformat (u "2024-1-15") = None
  /\ Iso.fromisoformat (u "2024-01-15T") = None
  /\ Iso.fromisoformat (u "2024-01-15T24:00:00") = None
  /\ Iso.fromisoformat (u "0000-01-01") = None.
Proof. repeat split; vm_compute; reflexivity. Qed.

(** The other forms the parser reads: an offset from UTC, hours and
    minutes only, a fraction of a second, the basic form of the date, and a
    week date. *)
Example fromisoformat_forms :
  Iso.fromisoformat (u "2024-01-15T10:00:00+05:30")
  = Some (Datetime (Date 2024 1 15) 10 0 0 0 (Some 19800000000))
  /\ Iso.fromisoformat (u "2024-01-15T10:00:00Z")
     = Some (Datetime (Date 2024 1 15) 10 0 0 0 (Some 0))
  /\ Iso.fromisoformat (u "2024-01-15T10:00")
     = Some (Datetime (Date 2024 1 15) 10 0 0 0 None)
  /\ Iso.fromisoformat (u "2024-01-15 10")
     = Some (Datetime (Date 2024 1 15) 10 0 0 0 None)
  /\ Iso.fromisoformat (u "2024-01-15T10:00:00.5")
     = Some (Datetime (Date 2024 1 15) 10 0 0 500000 None)
  /\ Iso.fromisoformat (u "20240115")
     = Some (Datetime (Date 2024 1 15) 0 0 0 0 None)
  /\ Iso.fromisoformat (u "2024-W03-1")
     = Some (Datetime (Date 2024 1 15) 0 0 0 0 None).
Proof. repeat split; vm_compute; reflexivity. Qed.

Example isoformat_date : isoformat (Date 2024 1 15) = u "2024-01-15".
Proof. reflexivity. Qed.

Example strip_example : strip (u "  Alice ") = u "Alice".
Proof. reflexivity. Qed.

Example create_alice :
  create_donation Iso.fromisoformat (alice "2024-01-15") 0 0 ∅
  = (Response 201 (Json (Donation.Dict 1 (u "Alice") (u "food") 3
                                       (u "2024-01-15"))),
     {[ 1 := alice_row 1 ]}).
Proof. vm_compute. reflexivity. Qed.

(** ** [str.strip] *)

Section Strip.

Implicit Types s t : pystr.

Local Abbreviation ws := whitespace.

Lemma lstrip_split s :
  exists l, s = l ++ lstrip s /\ Forall ws l.
Proof.
  induction s as [|c s [l [Hs Hl]]]; simpl.
  - exists []. split; [reflexivity | constructor].
  - destruct (isspace c) eqn:Hc.
    + exists (c :: l). split; [simpl; congruence | by constructor].
    + exists []. split; [reflexivity | constructor].
Qed.

Lemma lstrip_head s c : head (lstrip s) = Some c -> isspace c = false.
Proof.
  induction s as [|a s IH]; simpl; [discriminate|].
  destruct (isspace a) eqn:Ha; [exact IH|].
  simpl. intros [= <-]. exact Ha.
Qed.

Lemma lstrip_nil s : lstrip s = [] <-> Forall ws s.
Proof.
  induction s as [|a s IH]; simpl.
  - split; [constructor | reflexivity].
  - destruct (isspace a) eqn:Ha.
    + rewrite IH. split; [by constructor | by inversion 1].
    + split; [discriminate|]. inversion 1; subst. unfold whitespace in *. congruence.
Qed.

Lemma rstrip_split s :
  exists r, s = rstrip s ++ r /\ Forall ws r.
Proof.
  destruct (lstrip_split (reverse s)) as [l [Hs Hl]].
  exists (reverse l). split.
  - unfold rstrip. rewrite <- reverse_app, <- Hs.
    by rewrite reverse_involutive.
  - by apply Forall_reverse.
Qed.

Lemma rstrip_last s c : last (rstrip s) = Some c -> isspace c = false.
Proof.
  unfold rstrip. rewrite last_reverse. apply lstrip_head.
Qed.

Lemma rstrip_nil s : rstrip s = [] <-> Forall ws s.
Proof.
  unfold rstrip. rewrite <- (Forall_reverse _ s), <- lstrip_nil. split.
  - intros H. apply (f_equal reverse) in H.
    by rewrite reverse_involutive in H.
  - by intros ->.
Qed.

(** [strip] cuts whitespace on both sides and nothing else. *)
Lemma strip_trimmed s : trimmed s (strip s).
Proof.
  destruct (lstrip_split s) as [l [Hs Hl]].
  destruct (rstrip_split (lstrip s)) as [r [Hm Hr]].
  exists l, r. unfold strip. repeat split.
  - rewrite <- Hm. exact Hs.
  - exact Hl.
  - exact Hr.
  - intros c Hc. apply (lstrip_head s). rewrite Hm.
    destruct (rstrip (lstrip s)); [discriminate | exact Hc].
  - apply rstrip_last.
Qed.

(** The strings that [strip] empties are those made of whitespace only. *)
Lemma strip_nil s : strip s = [] <-> Forall ws s.
Proof.
  unfold strip. rewrite rstrip_nil. split.
  - intros H. destruct (lstrip_split s) as [l [Hs Hl]].
    rewrite Hs. by apply Forall_app.
  - intros H. destruct (lstrip_split s) as [l [Hs Hl]].
    rewrite Hs in H. by apply Forall_app in H as [_ H].
Qed.

Lemma strip_nonempty s :
  strip s <> [] <-> exists c, c ∈ s /\ isspace c = false.
Proof.
  rewrite strip_nil. split.
  - intros H. apply not_Forall_Exists in H; [|intros c; unfold whitespace; solve_decision].
    apply Exists_exists in H as [c [Hc Hn]]. exists c. split; [done|].
    unfold whitespace in Hn. simpl in Hn. by destruct (isspace c).
  - intros [c [Hc Hn]] H. rewrite Forall_forall in H.
    specialize (H c Hc). unfold whitespace in H. congruence.
Qed.

End Strip.

(** ** The validator *)

Section ValidatorFacts.

Variable fromisoformat : pystr -> option datetime.
Variable payload : gmap string pyval.
Variable partial : bool.

(** What [get_str] answers on a value that is not [None]. *)
Lemma get_str_present key v :
  get payload key = v -> v <> PNone ->
  get_str payload partial key =
    match isinstance_str v with
    | Some s =>
        match strip s with
        | [] => Abort 400 (key +:+ " must be a non-empty string")
        | t => Ok (Some t)
        end
    | None => Abort 400 (key +:+ " must be a non-empty string")
    end.
Proof.
  intros Hv Hn. unfold get_str. rewrite Hv. by destruct v.
Qed.

(** What [get_int] answers on a value that is not [None]. *)
Lemma get_int_present key v :
  get payload key = v -> v <> PNone ->
  get_int payload partial key =
    match isinstance_int v with
    | Some i =>
        if int_value i <? 1
        then Abort 400 (key +:+ " must be a positive integer")
        else Ok (Some i)
    | None => Abort 400 (key +:+ " must be a positive integer")
    end.
Proof.
  intros Hv Hn. unfold get_int. rewrite Hv. by destruct v.
Qed.

(** What the [date] entry answers on a value that is not [None]. *)
Lemma get_date_present v :
  get payload "date" = v -> v <> PNone ->
  get_date fromisoformat payload partial =
    let! d := parse_iso_date fromisoformat v in Ok (Some d).
Proof.
  intros Hv Hn. unfold get_date. rewrite Hv. by destruct v.
Qed.

(** A field whose value is [None]: missing when required, skipped
    otherwise. *)
Lemma get_str_none key :
  get payload key = PNone ->
  get_str payload partial key =
    if partial then Ok None
    else Abort 400 ("Missing required field: " +:+ key).
Proof. intros Hv. unfold get_str. rewrite Hv. by destruct partial. Qed.

Lemma get_int_none key :
  get payload key = PNone ->
  get_int payload partial key =
    if partial then Ok None
    else Abort 400 ("Missing required field: " +:+ key).
Proof. intros Hv. unfold get_int. rewrite Hv. by destruct partial. Qed.

Lemma get_date_none :
  get payload "date" = PNone ->
  get_date fromisoformat payload partial =
    if partial then Ok None
    else Abort 400 "Missing required field: date".
Proof. intros Hv. unfold get_date. rewrite Hv. by destruct partial. Qed.

Lemma get_donation_type_none :
  get payload "donation_type" = PNone ->
  get_donation_type payload partial =
    if partial then Ok None
    else Abort 400 "Missing required field: donation_type".
Proof.
  intros Hv. unfold get_donation_type. rewrite (get_str_none _ Hv).
  by destruct partial.
Qed.

(** The validator is the four field checks, run in order. *)
Lemma validate_payload_steps :
  validate_payload fromisoformat payload partial =
    match get_str payload partial "donor_name" with
    | Abort c d => Abort c d
    | Ok donor_name =>
        match get_donation_type payload partial with
        | Abort c d => Abort c d
        | Ok donation_type =>
            match get_int payload partial "quantity_or_amount" with
            | Abort c d => Abort c d
            | Ok qty =>
                match get_date fromisoformat payload partial with
                | Abort c d => Abort c d
                | Ok d => Ok (Fields donor_name donation_type qty d)
                end
            end
        end
    end.
Proof. reflexivity. Qed.

(** Every rejection of the validator carries status 400. *)
Lemma get_str_code key c d :
  get_str payload partial key = Abort c d -> c = 400.
Proof.
  unfold get_str. destruct (get payload key), partial; simpl;
    try destruct (strip s); congruence.
Qed.

Lemma get_int_code key c d :
  get_int payload partial key = Abort c d -> c = 400.
Proof.
  unfold get_int. destruct (get payload key), partial; simpl;
    try destruct (_ <? _); congruence.
Qed.

Lemma get_donation_type_code c d :
  get_donation_type payload partial = Abort c d -> c = 400.
Proof.
  unfold get_donation_type.
  destruct (get_str payload partial "donation_type") as [[t|]|c' d'] eqn:E;
    simpl; try congruence.
  - destruct (bool_decide _); congruence.
  - intros [= <- _]. by apply get_str_code in E.
Qed.

Lemma get_date_code c d :
  get_date fromisoformat payload partial = Abort c d -> c = 400.
Proof.
  unfold get_date, parse_iso_date.
  destruct (get payload "date"), partial; simpl;
    try destruct (fromisoformat s); simpl; congruence.
Qed.

Lemma validate_payload_code c d :
  validate_payload fromisoformat payload partial = Abort c d -> c = 400.
Proof.
  rewrite validate_payload_steps.
  destruct (get_str _ _ _) eqn:E1; [|intros [= <- _]; by apply get_str_code in E1].
  destruct (get_donation_type _ _) eqn:E2;
    [|intros [= <- _]; by apply get_donation_type_code in E2].
  destruct (get_int _ _ _) eqn:E3; [|intros [= <- _]; by apply get_int_code in E3].
  destruct (get_date _ _ _) eqn:E4; [|intros [= <- _]; by apply get_date_code in E4].
  discriminate.
Qed.

End ValidatorFacts.

(** C9. When [donor_name] is present, the validator accepts it exactly when
    it is a string with a character that is not whitespace, that is, a string
    that is not empty once trimmed; it rejects every other value with the
    message of the field; and the value put in the validated output is the
    trimmed string. *)
Theorem donor_name_accepted_iff_nonempty_trimmed
  (fromisoformat : pystr -> option datetime)
  (payload : gmap string pyval) (partial : bool) (v : pyval) :
  get payload "donor_name" = v -> v <> PNone ->
  ((exists t, get_str payload partial "donor_name" = Ok (Some t))
   <-> exists s, v = PStr s /\ exists c, c ∈ s /\ isspace c = false)
  /\ (forall s, v = PStr s -> strip s <> [] ->
        get_str payload partial "donor_name" = Ok (Some (strip s))
        /\ trimmed s (strip s))
  /\ ((forall s, v = PStr s -> strip s = []) ->
        validate_payload fromisoformat payload partial
        = Abort 400 "donor_name must be a non-empty string")
  /\ (forall out,
        validate_payload fromisoformat payload partial = Ok out ->
        exists s, v = PStr s /\ strip s <> []
                  /\ out_donor_name out = Some (strip s)).
Proof.
  intros Hv Hn.
  pose proof (get_str_present payload partial "donor_name" v Hv Hn) as Hg.
  split; [split|split; [|split]].
  - intros [t Ht]. rewrite Hg in Ht. destruct v; simpl in Ht; try discriminate.
    exists s. split; [reflexivity|]. apply strip_nonempty.
    by destruct (strip s).
  - intros [s [-> Hc]]. apply strip_nonempty in Hc. simpl in Hg.
    rewrite Hg. destruct (strip s); [congruence | eauto].
  - intros s -> Hs. simpl in Hg. split; [|apply strip_trimmed].
    rewrite Hg. destruct (strip s); [congruence | reflexivity].
  - intros Hall. rewrite validate_payload_steps, Hg.
    destruct v; simpl; try reflexivity. by rewrite (Hall s eq_refl).
  - intros out. rewrite validate_payload_steps, Hg.
    destruct v; simpl; try discriminate.
    destruct (strip s) eqn:Hs; [discriminate|].
    destruct (get_donation_type _ _); [|discriminate].
    destruct (get_int _ _ _); [|discriminate].
    destruct (get_date _ _ _); [|discriminate].
    intros [= <-]. exists s. by rewrite Hs.
Qed.

Lemma donor_name_accepted_iff_nonempty_trimmed_witness :
  let payload : gmap string pyval := {[ "donor_name" := PStr (u "  Alice ") ]} in
  get_str payload true "donor_name" = Ok (Some (u "Alice"))
  /\ validate_payload Iso.fromisoformat payload true
     = Ok (Fields (Some (u "Alice")) None None None)
  /\ exists s, PStr (u "  Alice ") = PStr s /\ strip s <> []
               /\ Some (u "Alice") = Some (strip s).
Proof.
  intros payload.
  split; [reflexivity|]. split; [reflexivity|].
  destruct (donor_name_accepted_iff_nonempty_trimmed
              Iso.fromisoformat payload true (PStr (u "  Alice ")))
    as (_ & _ & _ & H); [reflexivity | discriminate |].
  exact (H (Fields (Some (u "Alice")) None None None) eq_refl).
Defined.

(** The values that pass the check of [get_int]: the integers from 1 on and,
    since [isinstance(True, int)] holds and [True < 1] does not, the boolean
    [True]. *)
Lemma get_int_accepts (payload : gmap string pyval) (partial : bool)
  (key : string) (v : pyval) :
  get payload key = v -> v <> PNone ->
  (exists i, get_int payload partial key = Ok (Some i))
  <-> (exists z, v = PInt z /\ 1 <= z) \/ v = PBool true.
Proof.
  intros Hv Hn. rewrite (get_int_present payload partial key v Hv Hn).
  destruct v as [|b|z|f|s|l|d]; simpl.
  - congruence.
  - destruct b; simpl.
    + split; eauto.
    + split; [intros [i [=]] | intros [[z [[=] _]]|[=]]].
  - destruct (Z.ltb_spec z 1).
    + split; [intros [i [=]] | intros [[z' [[= <-] Hz']]|[=]]]. lia.
    + split; [intros _; left; by exists z | eauto].
  - split; [intros [i [=]] | intros [[z [[=] _]]|[=]]].
  - split; [intros [i [=]] | intros [[z [[=] _]]|[=]]].
  - split; [intros [i [=]] | intros [[z [[=] _]]|[=]]].
  - split; [intros [i [=]] | intros [[z [[=] _]]|[=]]].
Qed.

(** C1. The validator accepts the JSON boolean [true] as a
    [quantity_or_amount], which is not an integer of the payload: the
    validated output carries [True], and a create stores the quantity 1;
    floats, numeric strings, [false] and integers below 1 are rejected. *)
Theorem quantity_boolean_true_accepted
  (fromisoformat : pystr -> option datetime) :
  validate_payload fromisoformat {[ "quantity_or_amount" := PBool true ]} true
  = Ok (Fields None None (Some (Bool true)) None)
  /\ create_donation Iso.fromisoformat
       (Request true
          (<["quantity_or_amount" := PBool true]>
             (get_json (alice "2024-01-15")))) 0 0 ∅
     = (Response 201 (Json (Donation.Dict 1 (u "Alice") (u "food") 1
                                           (u "2024-01-15"))),
        {[ 1 := Donation.Row 1 (u "Alice") (u "food") 1 (Date 2024 1 15) 0 0 ]})
  /\ Forall
       (fun v =>
          validate_payload fromisoformat {[ "quantity_or_amount" := v ]} true
          = Abort 400 "quantity_or_amount must be a positive integer")
       [PBool false; PInt 0; PInt (-2); PFloat (S754_finite false 3 0);
        PStr (u "3"); PList []; PDict []].
Proof.
  split; [reflexivity|]. split; [vm_compute; reflexivity|].
  repeat constructor.
Qed.


Example four_invalid_fields :
  let payload : gmap string pyval :=
    <["donor_name" := PInt 5]>
    (<["donation_type" := PStr (u "clothes")]>
     (<["quantity_or_amount" := PInt 0]>
      (<["date" := PStr (u "yesterday")]> ∅))) in
  map (field_failure Iso.fromisoformat payload false) field_order
  = [Some (400, "donor_name must be a non-empty string");
     Some (400, "donation_type must be one of ['clothing', 'food', 'money', 'other']");
     Some (400, "quantity_or_amount must be a positive integer");
     Some (400, "Invalid date format; expected ISO (YYYY-MM-DD)")]
  /\ validate_payload Iso.fromisoformat payload false
     = Abort 400 "donor_name must be a non-empty string"
  /\ validate_payload Iso.fromisoformat
       (<["donor_name" := PStr (u "Bob")]> payload) false
     = Abort 400
         "donation_type must be one of ['clothing', 'food', 'money', 'other']".
Proof. repeat split; vm_compute; reflexivity. Qed.

(** ** What the validator guarantees about its output *)

Section ValidatorOutput.

Variable fromisoformat : pystr -> option datetime.
Variable payload : gmap string pyval.

(** In full mode a successful validation yields all four fields. *)
Lemma validate_full_complete out :
  validate_payload fromisoformat payload false = Ok out ->
  exists n ty q d, out = Fields (Some n) (Some ty) (Some q) (Some d).
Proof.
  rewrite validate_payload_steps.
  unfold get_donation_type, get_str, get_int, get_date, parse_iso_date.
  destruct (get payload "donor_name"); simpl; try discriminate.
  destruct (strip s) eqn:Hn; [discriminate|].
  destruct (get payload "donation_type"); simpl; try discriminate.
  destruct (strip s0) eqn:Hty; [discriminate|]. simpl.
  destruct (bool_decide _); [|discriminate].
  destruct (get payload "quantity_or_amount") as [|b|z| | | |]; simpl;
    try discriminate.
  - destruct (Z.b2z b <? 1); [discriminate|].
    destruct (get payload "date"); simpl; try discriminate.
    destruct (fromisoformat s1); [|discriminate].
    simpl. intros [= <-]. eauto.
  - destruct (z <? 1); [discriminate|].
    destruct (get payload "date"); simpl; try discriminate.
    destruct (fromisoformat s1); [|discriminate].
    simpl. intros [= <-]. eauto.
Qed.

Variable partial : bool.

Lemma get_donation_type_allowed ty :
  get_donation_type payload partial = Ok (Some ty) -> ty ∈ allowed_types.
Proof.
  unfold get_donation_type.
  destruct (get_str payload partial "donation_type") as [[t|]|];
    simpl; try discriminate.
  destruct (bool_decide (t ∈ allowed_types)) eqn:Hin; [|discriminate].
  intros [= <-]. by apply bool_decide_eq_true in Hin.
Qed.

Lemma get_int_positive key q :
  get_int payload partial key = Ok (Some q) -> 1 <= int_value q.
Proof.
  unfold get_int.
  destruct (get payload key) as [|b|z| | | |], partial; simpl;
    try discriminate.
  all: match goal with |- context [?x <? 1] => destruct (Z.ltb_spec x 1) end;
    try discriminate; intros [= <-]; exact H.
Qed.

(** The validated [donation_type] is one of the allowed types and the
    validated [quantity_or_amount] is at least 1. *)
Lemma validate_payload_sound out :
  validate_payload fromisoformat payload partial = Ok out ->
  (forall ty, out_donation_type out = Some ty -> ty ∈ allowed_types)
  /\ (forall q, out_quantity_or_amount out = Some q -> 1 <= int_value q).
Proof.
  rewrite validate_payload_steps.
  destruct (get_str _ _ _); [|discriminate].
  destruct (get_donation_type _ _) eqn:Hty; [|discriminate].
  destruct (get_int _ _ _) eqn:Hq; [|discriminate].
  destruct (get_date _ _ _); [|discriminate].
  intros [= <-]. simpl. split.
  - intros ty ->. by apply get_donation_type_allowed.
  - intros q ->. by apply get_int_positive in Hq.
Qed.

End ValidatorOutput.

(** ** The handlers, case by case *)

Lemma allowed_types_encodable (ty : pystr) :
  ty ∈ allowed_types -> encodable ty = true.
Proof.
  unfold allowed_types. intros H.
  repeat (apply elem_of_cons in H as [->|H]); [reflexivity..|].
  by apply elem_of_nil in H.
Qed.

Section RouteFacts.

Variable fromisoformat : pystr -> option datetime.

Lemma create_donation_not_json req t1 t2 tb :
  is_json req = false ->
  create_donation fromisoformat req t1 t2 tb
  = (Response 400 (Description "Request must be application/json"), tb).
Proof. intros H. unfold create_donation, require_json. by rewrite H. Qed.

Lemma create_donation_invalid req t1 t2 tb c d :
  is_json req = true ->
  validate_payload fromisoformat (get_json req) false = Abort c d ->
  create_donation fromisoformat req t1 t2 tb
  = (Response c (Description d), tb).
Proof.
  intros Hj Hv. unfold create_donation, require_json. by rewrite Hj, Hv.
Qed.

(** A validated payload that the store refuses: the create answers 500. *)
Lemma create_donation_refused req t1 t2 tb data :
  is_json req = true ->
  validate_payload fromisoformat (get_json req) false = Ok data ->
  storable data && fits_integer (next_id tb) = false ->
  create_donation fromisoformat req t1 t2 tb
  = (Response 500 (Description internal_server_error), tb).
Proof.
  intros Hj Hv Hs.
  destruct (validate_full_complete _ _ _ Hv) as (n & ty & q & d & ->).
  unfold create_donation, require_json.
  rewrite Hj, Hv.
  cbn [negb bind getitem out_donor_name out_donation_type
       out_quantity_or_amount out_date].
  unfold commit, insert_id.
  apply andb_false_iff in Hs as [->| ->]; [reflexivity|].
  by destruct (storable _).
Qed.

Lemma create_donation_valid req t1 t2 tb n ty q d :
  is_json req = true ->
  validate_payload fromisoformat (get_json req) false
  = Ok (Fields (Some n) (Some ty) (Some q) (Some d)) ->
  storable (Fields (Some n) (Some ty) (Some q) (Some d)) = true ->
  fits_integer (next_id tb) = true ->
  create_donation fromisoformat req t1 t2 tb
  = (Response 201
       (Json (Donation.to_dict
                (Donation.Row (next_id tb) n ty (int_value q) d t1 t2))),
     <[next_id tb := Donation.Row (next_id tb) n ty (int_value q) d t1 t2]>
       tb).
Proof.
  intros Hj Hv Hs Hi. unfold create_donation, require_json.
  rewrite Hj, Hv.
  cbn [negb bind getitem out_donor_name out_donation_type
       out_quantity_or_amount out_date].
  unfold commit. rewrite Hs. cbn [bind].
  unfold insert_id. by rewrite Hi.
Qed.

(** A create either is refused with status 400 or 500 and changes nothing,
    or inserts one row made of the validated fields under a new id. *)
Lemma create_donation_cases req t1 t2 tb :
  (exists c d, (c = 400 \/ c = 500)
               /\ create_donation fromisoformat req t1 t2 tb
                  = (Response c (Description d), tb))
  \/ (exists n ty q d,
        is_json req = true
        /\ validate_payload fromisoformat (get_json req) false
           = Ok (Fields (Some n) (Some ty) (Some q) (Some d))
        /\ storable (Fields (Some n) (Some ty) (Some q) (Some d)) = true
        /\ fits_integer (next_id tb) = true
        /\ create_donation fromisoformat req t1 t2 tb
           = (Response 201
                (Json (Donation.to_dict
                   (Donation.Row (next_id tb) n ty (int_value q) d t1 t2))),
              <[next_id tb :=
                  Donation.Row (next_id tb) n ty (int_value q) d t1 t2]> tb)).
Proof.
  destruct (is_json req) eqn:Hj.
  - destruct (validate_payload fromisoformat (get_json req) false)
      as [out|c d] eqn:Hv.
    + destruct (storable out && fits_integer (next_id tb)) eqn:Hs.
      * destruct (validate_full_complete _ _ _ Hv) as (n & ty & q & d & ->).
        apply andb_true_iff in Hs as [Hs Hi].
        right. exists n, ty, q, d. repeat (split; [done|]).
        by apply create_donation_valid.
      * left. exists 500, internal_server_error. split; [by right|].
        by eapply create_donation_refused.
    + left. exists 400, d. split; [by left|].
      rewrite (validate_payload_code _ _ _ _ _ Hv) in Hv.
      by apply create_donation_invalid.
  - left. eexists 400, _. split; [by left|].
    by apply create_donation_not_json.
Qed.

Lemma update_donation_not_json donation_id req now tb :
  is_json req = false ->
  update_donation fromisoformat donation_id req now tb
  = (Response 400 (Description "Request must be application/json"), tb).
Proof. intros H. unfold update_donation, require_json. by rewrite H. Qed.

Lemma update_donation_invalid donation_id req now tb c d :
  is_json req = true ->
  validate_payload fromisoformat (get_json req) true = Abort c d ->
  update_donation fromisoformat donation_id req now tb
  = (Response c (Description d), tb).
Proof.
  intros Hj Hv. unfold update_donation, require_json. by rewrite Hj, Hv.
Qed.

(** An id that the driver cannot bind: the lookup raises. *)
Lemma update_donation_overflow donation_id req now tb data :
  is_json req = true ->
  validate_payload fromisoformat (get_json req) true = Ok data ->
  fits_integer donation_id = false ->
  update_donation fromisoformat donation_id req now tb
  = (Response 500 (Description internal_server_error), tb).
Proof.
  intros Hj Hv Hi. unfold update_donation, require_json, query_get.
  by rewrite Hj, Hv, Hi.
Qed.

Lemma update_donation_missing donation_id req now tb data :
  is_json req = true ->
  validate_payload fromisoformat (get_json req) true = Ok data ->
  fits_integer donation_id = true ->
  tb !! donation_id = None ->
  update_donation fromisoformat donation_id req now tb
  = (Response 404 (Description "Donation not found"), tb).
Proof.
  intros Hj Hv Hi Hrow. unfold update_donation, require_json, query_get.
  by rewrite Hj, Hv, Hi, Hrow.
Qed.

(** Validated values that the store refuses: the update answers 500. *)
Lemma update_donation_refused donation_id req now tb data row :
  is_json req = true ->
  validate_payload fromisoformat (get_json req) true = Ok data ->
  fits_integer donation_id = true ->
  tb !! donation_id = Some row ->
  storable data = false ->
  update_donation fromisoformat donation_id req now tb
  = (Response 500 (Description internal_server_error), tb).
Proof.
  intros Hj Hv Hi Hrow Hs.
  unfold update_donation, require_json, query_get.
  rewrite Hj, Hv, Hi, Hrow. cbn [negb bind]. unfold commit. by rewrite Hs.
Qed.

Lemma update_donation_found donation_id req now tb data row :
  is_json req = true ->
  validate_payload fromisoformat (get_json req) true = Ok data ->
  fits_integer donation_id = true ->
  tb !! donation_id = Some row ->
  storable data = true ->
  update_donation fromisoformat donation_id req now tb
  = (Response 200
       (Json (Donation.to_dict
                (Donation.set_updated_at now (apply_fields data row)))),
     <[donation_id := Donation.set_updated_at now (apply_fields data row)]>
       tb).
Proof.
  intros Hj Hv Hi Hrow Hs.
  unfold update_donation, require_json, query_get.
  rewrite Hj, Hv, Hi, Hrow. cbn [negb bind]. unfold commit. by rewrite Hs.
Qed.

(** An update is refused with status 400, 404 or 500 and changes nothing,
    or rewrites the row it found. *)
Lemma update_donation_cases donation_id req now tb :
  (exists c d, (c = 400 \/ c = 404 \/ c = 500)
               /\ update_donation fromisoformat donation_id req now tb
                  = (Response c (Description d), tb))
  \/ (exists data row,
        is_json req = true
        /\ validate_payload fromisoformat (get_json req) true = Ok data
        /\ fits_integer donation_id = true
        /\ tb !! donation_id = Some row
        /\ storable data = true
        /\ update_donation fromisoformat donation_id req now tb
           = (Response 200
                (Json (Donation.to_dict
                   (Donation.set_updated_at now (apply_fields data row)))),
              <[donation_id :=
                  Donation.set_updated_at now (apply_fields data row)]> tb)).
Proof.
  destruct (is_json req) eqn:Hj.
  - destruct (validate_payload fromisoformat (get_json req) true)
      as [data|c d] eqn:Hv.
    + destruct (fits_integer donation_id) eqn:Hi.
      * destruct (tb !! donation_id) as [row|] eqn:Hrow.
        -- destruct (storable data) eqn:Hs.
           ++ right. exists data, row. repeat (split; [done|]).
              by apply update_donation_found.
           ++ left. exists 500, internal_server_error. split; [auto|].
              by eapply update_donation_refused.
        -- left. exists 404, "Donation not found". split; [auto|].
           by eapply update_donation_missing.
      * left. exists 500, internal_server_error. split; [auto|].
        by eapply update_donation_overflow.
    + left. exists 400, d. split; [auto|].
      rewrite (validate_payload_code _ _ _ _ _ Hv) in Hv.
      by apply update_donation_invalid.
  - left. eexists 400, _. split; [auto|].
    by apply update_donation_not_json.
Qed.

Lemma delete_donation_overflow donation_id (tb : table) :
  fits_integer donation_id = false ->
  delete_donation donation_id tb
  = (Response 500 (Description internal_server_error), tb).
Proof. intros H. unfold delete_donation, query_get. by rewrite H. Qed.

Lemma delete_donation_missing donation_id (tb : table) :
  fits_integer donation_id = true ->
  tb !! donation_id = None ->
  delete_donation donation_id tb
  = (Response 404 (Description "Donation not found"), tb).
Proof. intros Hi H. unfold delete_donation, query_get. by rewrite Hi, H. Qed.

Lemma delete_donation_found donation_id (tb : table) row :
  fits_integer donation_id = true ->
  tb !! donation_id = Some row ->
  delete_donation donation_id tb
  = (Response 204 Empty, delete donation_id tb).
Proof. intros Hi H. unfold delete_donation, query_get. by rewrite Hi, H. Qed.

(** A delete is refused with status 404 or 500 and changes nothing, or
    removes the row it found. *)
Lemma delete_donation_cases donation_id (tb : table) :
  (exists c d, (c = 404 \/ c = 500)
               /\ delete_donation donation_id tb
                  = (Response c (Description d), tb))
  \/ (exists row,
        fits_integer donation_id = true
        /\ tb !! donation_id = Some row
        /\ delete_donation donation_id tb
           = (Response 204 Empty, delete donation_id tb)).
Proof.
  destruct (fits_integer donation_id) eqn:Hi.
  - destruct (tb !! donation_id) as [row|] eqn:Hrow.
    + right. exists row. repeat (split; [done|]).
      by eapply delete_donation_found.
    + left. exists 404, "Donation not found". split; [auto|].
      by apply delete_donation_missing.
  - left. exists 500, internal_server_error. split; [auto|].
    by apply delete_donation_overflow.
Qed.

End RouteFacts.

(** ** The date parser *)

Lemma digit_bounds x : (48 <= digit x <= 57)%N.
Proof.
  unfold digit. pose proof (Z.mod_pos_bound x 10 ltac:(lia)). lia.
Qed.

Lemma digit_value x : Z.of_N (digit x) - 48 = x mod 10.
Proof.
  unfold digit. pose proof (Z.mod_pos_bound x 10 ltac:(lia)). lia.
Qed.

Lemma is_digit_digit x : Iso.is_digit (digit x) = true.
Proof.
  unfold Iso.is_digit. pose proof (digit_bounds x).
  apply andb_true_iff. split; apply N.leb_le; lia.
Qed.

Lemma is_surrogate_digit x : is_surrogate (digit x) = false.
Proof.
  unfold is_surrogate. pose proof (digit_bounds x).
  apply andb_false_iff. left. apply N.leb_gt. lia.
Qed.

Lemma utf8_char_digit x : Iso.utf8_char (digit x) = Some [digit x].
Proof.
  unfold Iso.utf8_char. pose proof (digit_bounds x).
  destruct (N.ltb_spec (digit x) 128); [reflexivity | lia].
Qed.

Lemma digit_neq x (c : N) : (c < 48 \/ 57 < c)%N -> (digit x =? c)%N = false.
Proof. intros H. pose proof (digit_bounds x). apply N.eqb_neq. lia. Qed.

Lemma parse_digits_digit b p var n x :
  Iso.at_ b p = digit x ->
  Iso.parse_digits b p var (S n)
  = Iso.parse_digits b (S p) (10 * var + x mod 10) n.
Proof.
  intros H. simpl. by rewrite H, is_digit_digit, digit_value.
Qed.

Lemma fromisoformat_isoformat (d : date) :
  Iso.check_date_args (year d) (month d) (day d) = true ->
  Iso.fromisoformat (isoformat d) = Some (Datetime d 0 0 0 0 None).
Proof.
  destruct d as [y m dd]. simpl. intros Hc.
  assert (Hr : 0 <= y <= 9999 /\ 0 <= m <= 99 /\ 0 <= dd <= 99).
  { unfold Iso.check_date_args in Hc.
    repeat (apply andb_true_iff in Hc as [Hc ?]).
    assert (dd <= 31).
    { assert (Iso.days_in_month y m <= 31); [|lia].
      unfold Iso.days_in_month.
      destruct (_ && _); [lia|].
      assert (Hm : 1 <= m <= 12) by lia.
      assert (m = 1 \/ m = 2 \/ m = 3 \/ m = 4 \/ m = 5 \/ m = 6 \/ m = 7
              \/ m = 8 \/ m = 9 \/ m = 10 \/ m = 11 \/ m = 12) as Hcases by lia.
      repeat destruct Hcases as [->|Hcases]; try subst m; simpl; lia. }
    lia. }
  unfold Iso.fromisoformat, isoformat. simpl year. simpl month. simpl day.
  set (s := [digit (y / 1000); digit (y / 100); digit (y / 10); digit y; 45%N;
             digit (m / 10); digit m; 45%N; digit (dd / 10); digit dd]).
  assert (Hsan : Iso.sanitize s = Some s).
  { unfold Iso.sanitize, s. simpl. by rewrite is_surrogate_digit. }
  assert (Hutf : Iso.utf8 s = Some s).
  { unfold s. simpl. by rewrite !utf8_char_digit. }
  rewrite Hsan, Hutf.
  assert (Hsep : Iso.find_isoformat_datetime_separator s (length s)
                 = Some 10%nat).
  { unfold Iso.find_isoformat_datetime_separator, s. simpl.
    unfold Iso.at_. simpl. by rewrite (digit_neq _ 87) by lia. }
  rewrite Hsep.
  assert (Hdate : Iso.parse_isoformat_date s 10 = Some (y, m, dd)).
  { unfold Iso.parse_isoformat_date, s.
    do 8 (cbn [Iso.parse_digits Iso.at_ nth];
          rewrite ?is_digit_digit, ?digit_value, ?(digit_neq _ 87) by lia;
          cbn [N.eqb Pos.eqb andb negb]).
    do 3 f_equal; [f_equal|..]; Z.to_euclidean_division_equations; lia. }
  rewrite Hdate. unfold s at 1. cbn [length Nat.ltb Nat.leb].
  cbn [Iso.tzinfo_from_isoformat_results]. rewrite Hc.
  reflexivity.
Qed.

(** A calendar day followed by [T] and a time of day HH:MM:SS parses to
    that day and time. *)
Lemma fromisoformat_timestamp_suffix (d : date) (h m s : Z) :
  Iso.check_date_args (year d) (month d) (day d) = true ->
  Iso.check_time_args h m s 0 = true ->
  Iso.fromisoformat (isoformat d ++ timestamp_suffix h m s)
  = Some (Datetime d h m s 0 None).
Proof.
  destruct d as [y mo dd]. simpl. intros Hc Ht.
  assert (Hr : 0 <= y <= 9999 /\ 0 <= mo <= 99 /\ 0 <= dd <= 99).
  { unfold Iso.check_date_args in Hc.
    repeat (apply andb_true_iff in Hc as [Hc ?]).
    assert (dd <= 31).
    { assert (Iso.days_in_month y mo <= 31); [|lia].
      unfold Iso.days_in_month.
      destruct (_ && _); [lia|].
      assert (Hm : 1 <= mo <= 12) by lia.
      assert (mo = 1 \/ mo = 2 \/ mo = 3 \/ mo = 4 \/ mo = 5 \/ mo = 6
              \/ mo = 7 \/ mo = 8 \/ mo = 9 \/ mo = 10 \/ mo = 11 \/ mo = 12)
        as Hcases by lia.
      repeat destruct Hcases as [->|Hcases]; try subst mo; simpl; lia. }
    lia. }
  assert (Hrt : 0 <= h <= 23 /\ 0 <= m <= 59 /\ 0 <= s <= 59).
  { unfold Iso.check_time_args in Ht.
    repeat (apply andb_true_iff in Ht as [Ht ?]). lia. }
  unfold Iso.fromisoformat, isoformat, timestamp_suffix.
  simpl year. simpl month. simpl day. cbn [app].
  set (b := [digit (y / 1000); digit (y / 100); digit (y / 10); digit y; 45%N;
             digit (mo / 10); digit mo; 45%N; digit (dd / 10); digit dd;
             84%N; digit (h / 10); digit h; 58%N; digit (m / 10); digit m;
             58%N; digit (s / 10); digit s]).
  assert (Hsan : Iso.sanitize b = Some b).
  { unfold Iso.sanitize, b. simpl. by rewrite !is_surrogate_digit. }
  assert (Hutf : Iso.utf8 b = Some b).
  { unfold b. simpl. by rewrite !utf8_char_digit. }
  rewrite Hsan, Hutf.
  assert (Hsep : Iso.find_isoformat_datetime_separator b (length b)
                 = Some 10%nat).
  { unfold Iso.find_isoformat_datetime_separator, b. simpl.
    unfold Iso.at_. simpl. by rewrite (digit_neq _ 87) by lia. }
  rewrite Hsep.
  assert (Hdate : Iso.parse_isoformat_date b 10 = Some (y, mo, dd)).
  { unfold Iso.parse_isoformat_date, b.
    do 8 (cbn [Iso.parse_digits Iso.at_ nth];
          rewrite ?is_digit_digit, ?digit_value, ?(digit_neq _ 87) by lia;
          cbn [N.eqb Pos.eqb andb negb]).
    do 3 f_equal; [f_equal|..]; Z.to_euclidean_division_equations; lia. }
  rewrite Hdate. unfold b at 1 2 3 4.
  cbn [length Nat.ltb Nat.leb Iso.at_ nth Iso.char_width N.land Pos.land
       N.eqb Pos.eqb Nat.add Nat.sub drop].
  change (Iso.at_ b 10) with 84%N.
  change (Iso.char_width 84) with 1%nat.
  cbn [drop Nat.sub].
  set (t := [digit (h / 10); digit h; 58%N; digit (m / 10); digit m; 58%N;
             digit (s / 10); digit s]).
  assert (Htz : Iso.find_tz t 0 8 9 = 8%nat).
  { unfold t.
    do 9 (cbn [Iso.find_tz Iso.at_ nth];
          rewrite ?(digit_neq _ 90), ?(digit_neq _ 43), ?(digit_neq _ 45)
            by lia;
          cbn [N.eqb Pos.eqb orb Nat.ltb Nat.leb]).
    reflexivity. }
  assert (Htime : Iso.parse_isoformat_time t 8 = Some (h, m, s, 0, None)).
  { unfold Iso.parse_isoformat_time. rewrite Htz.
    unfold Iso.parse_hh_mm_ss_ff, Iso.after_digits, t.
    do 8 (cbn [Iso.parse_digits Iso.at_ nth];
          rewrite ?is_digit_digit, ?digit_value by lia;
          cbn [N.eqb Pos.eqb andb orb negb Nat.leb Nat.eqb]).
    do 4 f_equal; [f_equal; [f_equal|]|];
      Z.to_euclidean_division_equations; lia. }
  rewrite Htime. cbn [Iso.tzinfo_from_isoformat_results].
  by rewrite Hc, Ht.
Qed.

(** What the parser accepts has at least seven characters and names a day
    of the calendar, in a year from 1 to 9999. *)
Lemma fromisoformat_sound (s : pystr) (dt : datetime) :
  Iso.fromisoformat s = Some dt ->
  Iso.check_date_args (year (datetime_date dt)) (month (datetime_date dt))
    (day (datetime_date dt)) = true
  /\ (7 <= length s)%nat.
Proof.
  unfold Iso.fromisoformat.
  destruct (Iso.sanitize s) as [clean|] eqn:Hsan; [|discriminate].
  assert (Hlen : (7 <= length s)%nat).
  { unfold Iso.sanitize in Hsan.
    destruct (Nat.ltb_spec (length s) 7); [discriminate | lia]. }
  destruct (Iso.utf8 clean) as [b|]; [|discriminate].
  destruct (Iso.find_isoformat_datetime_separator _ _) as [sep|];
    [|discriminate].
  destruct (Iso.parse_isoformat_date _ _) as [[[y m] d]|]; [|discriminate].
  destruct (if (sep <? length b)%nat then _ else _)
    as [[[[[h mi] sec] us] tz]|]; [|discriminate].
  destruct (Iso.tzinfo_from_isoformat_results tz); [|discriminate].
  destruct (Iso.check_date_args y m d) eqn:Hd; [|discriminate].
  destruct (Iso.check_time_args h mi sec us); [|discriminate].
  intros [= <-]. simpl. by split.
Qed.

(** C4, as amended. When [date] is present, the validator accepts it
    exactly when it is a string that [datetime.fromisoformat] parses, and
    keeps the date of the result; a value that is not a string and a string
    that does not parse are each rejected with their own message.  What
    parses names a real calendar day and has seven characters at least; the
    string YYYY-MM-DD of every calendar day parses to that day, with or
    without the suffix THH:MM:SS of a time of day.  A record created with
    the date 2024-01-15T10:00:00 is stored with the date 2024-01-15 and
    returned with the string 2024-01-15. *)
Theorem date_accepted_iff_fromisoformat_parses
  (payload : gmap string pyval) (partial : bool) (v : pyval) :
  get payload "date" = v -> v <> PNone ->
  ((exists d, get_date Iso.fromisoformat payload partial = Ok (Some d))
   <-> exists s dt, v = PStr s /\ Iso.fromisoformat s = Some dt)
  /\ (forall s dt, v = PStr s -> Iso.fromisoformat s = Some dt ->
        get_date Iso.fromisoformat payload partial
        = Ok (Some (datetime_date dt)))
  /\ (forall s, v = PStr s -> Iso.fromisoformat s = None ->
        get_date Iso.fromisoformat payload partial
        = Abort 400 "Invalid date format; expected ISO (YYYY-MM-DD)")
  /\ ((forall s, v <> PStr s) ->
        get_date Iso.fromisoformat payload partial
        = Abort 400 "date must be a string in ISO format (YYYY-MM-DD)")
  /\ (forall out,
        validate_payload Iso.fromisoformat payload partial = Ok out ->
        exists s dt, v = PStr s /\ Iso.fromisoformat s = Some dt
                     /\ out_date out = Some (datetime_date dt))
  /\ (forall s dt,
        Iso.fromisoformat s = Some dt ->
        Iso.check_date_args (year (datetime_date dt))
          (month (datetime_date dt)) (day (datetime_date dt)) = true
        /\ (7 <= length s)%nat)
  /\ (forall d,
        Iso.check_date_args (year d) (month d) (day d) = true ->
        Iso.fromisoformat (isoformat d) = Some (Datetime d 0 0 0 0 None))
  /\ (forall d h m s,
        Iso.check_date_args (year d) (month d) (day d) = true ->
        Iso.check_time_args h m s 0 = true ->
        Iso.fromisoformat (isoformat d ++ timestamp_suffix h m s)
        = Some (Datetime d h m s 0 None))
  /\ (forall t1 t2 tb,
        fits_integer (next_id tb) = true ->
        create_donation Iso.fromisoformat (alice "2024-01-15T10:00:00")
          t1 t2 tb
        = (Response 201
             (Json (Donation.Dict (next_id tb) (u "Alice") (u "food") 3
                                  (u "2024-01-15"))),
           <[next_id tb :=
               Donation.Row (next_id tb) (u "Alice") (u "food") 3
                            (Date 2024 1 15) t1 t2]> tb)).
Proof.
  intros Hv Hn.
  pose proof (get_date_present Iso.fromisoformat payload partial v Hv Hn)
    as Hg.
  unfold parse_iso_date in Hg.
  split; [split|split; [|split; [|split; [|split; [|split; [|split;
    [|split]]]]]]].
  - intros [d Hd]. rewrite Hg in Hd.
    destruct v; simpl in Hd; try discriminate.
    destruct (Iso.fromisoformat s) eqn:Hs; [eauto | discriminate].
  - intros (s & dt & -> & Hs). simpl in Hg. rewrite Hg, Hs. simpl. eauto.
  - intros s dt -> Hs. simpl in Hg. by rewrite Hg, Hs.
  - intros s -> Hs. simpl in Hg. by rewrite Hg, Hs.
  - intros Hs. rewrite Hg. destruct v; simpl; try reflexivity.
    by destruct (Hs s).
  - intros out. rewrite validate_payload_steps.
    destruct (get_str _ _ _); [|discriminate].
    destruct (get_donation_type _ _); [|discriminate].
    destruct (get_int _ _ _); [|discriminate].
    rewrite Hg. destruct v; simpl; try discriminate.
    destruct (Iso.fromisoformat s) eqn:Hs; simpl; [|discriminate].
    intros [= <-]. simpl. eauto.
  - apply fromisoformat_sound.
  - apply fromisoformat_isoformat.
  - apply fromisoformat_timestamp_suffix.
  - intros t1 t2 tb Hi.
    by rewrite (create_donation_valid Iso.fromisoformat
                  (alice "2024-01-15T10:00:00") t1 t2 tb
                  (u "Alice") (u "food") (Int 3) (Date 2024 1 15)
                  eq_refl eq_refl eq_refl Hi).
Qed.

Lemma date_accepted_iff_fromisoformat_parses_witness :
  let payload : gmap string pyval :=
    {[ "date" := PStr (u "2024-01-15T10:00:00") ]} in
  get payload "date" = PStr (u "2024-01-15T10:00:00")
  /\ get_date Iso.fromisoformat payload true = Ok (Some (Date 2024 1 15))
  /\ Iso.fromisoformat (isoformat (Date 2024 2 29))
     = Some (Datetime (Date 2024 2 29) 0 0 0 0 None)
  /\ Iso.fromisoformat (isoformat (Date 2024 2 29) ++ timestamp_suffix 23 59 7)
     = Some (Datetime (Date 2024 2 29) 23 59 7 0 None)
  /\ create_donation Iso.fromisoformat (alice "2024-01-15T10:00:00") 5 6 ∅
     = (Response 201
          (Json (Donation.Dict 1 (u "Alice") (u "food") 3 (u "2024-01-15"))),
        <[1 := Donation.Row 1 (u "Alice") (u "food") 3 (Date 2024 1 15) 5 6]>
          ∅).
Proof.
  intros payload.
  destruct (date_accepted_iff_fromisoformat_parses payload true
              (PStr (u "2024-01-15T10:00:00")))
    as (_ & Hacc & _ & _ & _ & _ & Hiso & Hts & Hrun);
    [reflexivity | discriminate |].
  split; [reflexivity|]. split; [|split; [|split]].
  - exact (Hacc (u "2024-01-15T10:00:00")
                (Datetime (Date 2024 1 15) 10 0 0 0 None) eq_refl eq_refl).
  - exact (Hiso (Date 2024 2 29) eq_refl).
  - exact (Hts (Date 2024 2 29) 23 59 7 eq_refl eq_refl).
  - exact (Hrun 5 6 ∅ eq_refl).
Defined.

(** C4, as stated, fails: strings that are not of the shape YYYY-MM-DD are
    accepted, the basic form YYYYMMDD and the week date YYYY-Www-D, as is a
    date followed by an hour only; and a string of that shape with a bare
    separator after it is rejected. *)
Lemma date_outside_claimed_format_accepted :
  validate_payload Iso.fromisoformat {[ "date" := PStr (u "20240115") ]} true
  = Ok (Fields None None None (Some (Date 2024 1 15)))
  /\ ymd_shaped (u "20240115") = false
  /\ validate_payload Iso.fromisoformat
       {[ "date" := PStr (u "2024-W03-1") ]} true
     = Ok (Fields None None None (Some (Date 2024 1 15)))
  /\ ymd_shaped (u "2024-W03-1") = false
  /\ validate_payload Iso.fromisoformat
       {[ "date" := PStr (u "2024-01-15 10") ]} true
     = Ok (Fields None None None (Some (Date 2024 1 15)))
  /\ validate_payload Iso.fromisoformat
       {[ "date" := PStr (u "2024-01-15T") ]} true
     = Abort 400 "Invalid date format; expected ISO (YYYY-MM-DD)"
  /\ ymd_shaped (u "2024-01-15T") = true.
Proof. repeat split; vm_compute; reflexivity. Qed.

(** The row after the conditional assignments: a column takes the value of
    its key when the key is in the validated dict and keeps its own
    otherwise; [id], [created_at] and [updated_at] are never assigned. *)
Lemma apply_fields_columns (data : fields) (row : Donation.t) :
  Donation.id (apply_fields data row) = Donation.id row
  /\ Donation.created_at (apply_fields data row) = Donation.created_at row
  /\ Donation.updated_at (apply_fields data row) = Donation.updated_at row
  /\ Donation.donor_name (apply_fields data row)
     = default (Donation.donor_name row) (out_donor_name data)
  /\ Donation.donation_type (apply_fields data row)
     = default (Donation.donation_type row) (out_donation_type data)
  /\ Donation.quantity_or_amount (apply_fields data row)
     = from_option int_value (Donation.quantity_or_amount row)
         (out_quantity_or_amount data)
  /\ Donation.date (apply_fields data row)
     = default (Donation.date row) (out_date data).
Proof.
  destruct data as [[n|] [ty|] [q|] [d|]], row; repeat split.
Qed.

(** C2, as amended. An update of an existing record with a validated
    partial field set whose values the store can hold gives each business
    column the value of its key when the key is in the field set and leaves
    it as it was otherwise, keeps [id] and [created_at], sets [updated_at] to
    the current time, and touches no other record; with an empty payload the
    business columns are all unchanged and [updated_at] is still set to the
    current time.  When the store cannot hold a value, the update answers
    500 and changes nothing. *)
Theorem update_changes_supplied_fields_only
  (fromisoformat : pystr -> option datetime)
  (donation_id : Z) (req : request) (now : Z) (tb : table)
  (data : fields) (row : Donation.t) :
  is_json req = true ->
  validate_payload fromisoformat (get_json req) true = Ok data ->
  fits_integer donation_id = true ->
  tb !! donation_id = Some row ->
  (storable data = true ->
   exists row',
    update_donation fromisoformat donation_id req now tb
    = (Response 200 (Json (Donation.to_dict row')), <[donation_id := row']> tb)
    /\ (update_donation fromisoformat donation_id req now tb).2 !! donation_id
       = Some row'
    /\ (forall k, k <> donation_id ->
          (update_donation fromisoformat donation_id req now tb).2 !! k
          = tb !! k)
    /\ Donation.id row' = Donation.id row
    /\ Donation.created_at row' = Donation.created_at row
    /\ Donation.updated_at row' = now
    /\ Donation.donor_name row'
       = default (Donation.donor_name row) (out_donor_name data)
    /\ Donation.donation_type row'
       = default (Donation.donation_type row) (out_donation_type data)
    /\ Donation.quantity_or_amount row'
       = from_option int_value (Donation.quantity_or_amount row)
           (out_quantity_or_amount data)
    /\ Donation.date row' = default (Donation.date row) (out_date data)
    /\ (get_json req = ∅ ->
          Donation.donor_name row' = Donation.donor_name row
          /\ Donation.donation_type row' = Donation.donation_type row
          /\ Donation.quantity_or_amount row' = Donation.quantity_or_amount row
          /\ Donation.date row' = Donation.date row))
  /\ (storable data = false ->
      update_donation fromisoformat donation_id req now tb
      = (Response 500 (Description internal_server_error), tb))
  /\ (get_json req = ∅ -> storable data = true).
Proof.
  intros Hj Hv Hi Hrow. split; [|split].
  - intros Hs.
    exists (Donation.set_updated_at now (apply_fields data row)).
    rewrite (update_donation_found _ _ _ _ _ _ _ Hj Hv Hi Hrow Hs). simpl.
    destruct (apply_fields_columns data row)
      as (Hid & Hc & _ & Hn & Hty & Hq & Hd).
    split; [reflexivity|]. split; [apply lookup_insert_eq|].
    split; [intros k Hk; by apply lookup_insert_ne|].
    repeat (split; [assumption || reflexivity|]).
    intros Hempty. rewrite Hempty in Hv. injection Hv as <-.
    rewrite Hn, Hty, Hq, Hd. repeat split.
  - intros Hs. by eapply update_donation_refused.
  - intros Hempty. rewrite Hempty in Hv. by injection Hv as <-.
Qed.

Lemma update_changes_supplied_fields_only_witness :
  exists row',
    update_donation Iso.fromisoformat 1
      (Request true {[ "quantity_or_amount" := PInt 5 ]}) 7
      {[ 1 := alice_row 1 ]}
    = (Response 200 (Json (Donation.to_dict row')),
       <[1 := row']> {[ 1 := alice_row 1 ]})
    /\ Donation.updated_at row' = 7
    /\ Donation.quantity_or_amount row' = 5
    /\ Donation.donor_name row' = u "Alice".
Proof.
  destruct (update_changes_supplied_fields_only Iso.fromisoformat 1
              (Request true {[ "quantity_or_amount" := PInt 5 ]}) 7
              {[ 1 := alice_row 1 ]}
              (Fields None None (Some (Int 5)) None) (alice_row 1))
    as (H & _); [reflexivity | reflexivity | reflexivity | reflexivity |].
  destruct (H eq_refl) as (row' & Hrun & _ & _ & _ & _ & Hu & Hn & _ & Hq & _).
  exists row'. repeat split; assumption.
Defined.

(** C2, as stated, fails: the quantity 2^63 is validated, and the update
    of an existing record with it answers 500 and leaves the record as it
    was, [updated_at] included. *)
Lemma update_refused_by_store :
  let req := Request true {[ "quantity_or_amount" := PInt (2 ^ 63) ]} in
  validate_payload Iso.fromisoformat (get_json req) true
  = Ok (Fields None None (Some (Int (2 ^ 63))) None)
  /\ update_donation Iso.fromisoformat 1 req 9 {[ 1 := alice_row 1 ]}
     = (Response 500 (Description internal_server_error),
        {[ 1 := alice_row 1 ]})
  /\ Donation.updated_at (alice_row 1) <> 9.
Proof. repeat split; try (vm_compute; reflexivity). discriminate. Qed.

(** C5. A request whose payload fails validation is answered with status
    400 by a response that does not depend on the table and leaves the table
    as it was, for create and for update alike; and every operation either
    succeeds or leaves the table unchanged. *)
Theorem invalid_payload_leaves_store_untouched
  (fromisoformat : pystr -> option datetime) (req : request) :
  (forall c d,
     validate_payload fromisoformat (get_json req) false = Abort c d ->
     exists r, status r = 400
       /\ forall t1 t2 tb,
            create_donation fromisoformat req t1 t2 tb = (r, tb))
  /\ (forall c d,
        validate_payload fromisoformat (get_json req) true = Abort c d ->
        exists r, status r = 400
          /\ forall donation_id now tb,
               update_donation fromisoformat donation_id req now tb = (r, tb))
  /\ (forall t1 t2 tb,
        status (create_donation fromisoformat req t1 t2 tb).1 <> 201 ->
        (create_donation fromisoformat req t1 t2 tb).2 = tb)
  /\ (forall donation_id now tb,
        status (update_donation fromisoformat donation_id req now tb).1 <> 200 ->
        (update_donation fromisoformat donation_id req now tb).2 = tb)
  /\ (forall donation_id tb,
        status (delete_donation donation_id tb).1 <> 204 ->
        (delete_donation donation_id tb).2 = tb).
Proof.
  split; [|split; [|split; [|split]]].
  - intros c d Hv. pose proof (validate_payload_code _ _ _ _ _ Hv) as ->.
    destruct (is_json req) eqn:Hj.
    + exists (Response 400 (Description d)). split; [reflexivity|].
      intros. by apply create_donation_invalid.
    + eexists. split; [|intros; by apply create_donation_not_json].
      reflexivity.
  - intros c d Hv. pose proof (validate_payload_code _ _ _ _ _ Hv) as ->.
    destruct (is_json req) eqn:Hj.
    + exists (Response 400 (Description d)). split; [reflexivity|].
      intros. by apply update_donation_invalid.
    + eexists. split; [|intros; by apply update_donation_not_json].
      reflexivity.
  - intros t1 t2 tb.
    destruct (create_donation_cases fromisoformat req t1 t2 tb)
      as [(c0 & d & _ & ->)|(n & ty & q & d & _ & _ & _ & _ & ->)]; simpl; [done|].
    intros H. by destruct H.
  - intros donation_id now tb.
    destruct (update_donation_cases fromisoformat donation_id req now tb)
      as [(c & d & _ & ->)|(data & row & _ & _ & _ & _ & _ & ->)]; simpl; [done|].
    intros H. by destruct H.
  - intros donation_id tb. destruct (delete_donation_cases donation_id tb)
      as [(c0 & d0 & _ & ->)|(row0 & _ & _ & ->)]; simpl; [done|].
    intros H. by destruct H.
Qed.

Lemma invalid_payload_leaves_store_untouched_witness :
  exists r, status r = 400
    /\ forall t1 t2 tb,
         create_donation Iso.fromisoformat
           (Request true
              (<["donation_type" := PStr (u "clothes")]>
                 (get_json (alice "2024-01-15")))) t1 t2 tb
         = (r, tb).
Proof.
  destruct (invalid_payload_leaves_store_untouched Iso.fromisoformat
              (Request true
                 (<["donation_type" := PStr (u "clothes")]>
                    (get_json (alice "2024-01-15")))))
    as (H & _).
  exact (H 400
           "donation_type must be one of ['clothing', 'food', 'money', 'other']"
           eq_refl).
Defined.

(** C6, as amended. On an id within 64 bits that has no record, an update
    with a valid field set and a delete are both answered with status 404
    and leave the table as it was; a delete repeated on such an id is
    answered 404 both times; and once a record has been deleted its id has no
    record.  On an id beyond 64 bits the lookup fails: both are answered
    500, and the table is left as it was. *)
Theorem missing_id_is_not_found
  (fromisoformat : pystr -> option datetime)
  (donation_id : Z) (tb : table) :
  tb !! donation_id = None ->
  (fits_integer donation_id = true ->
   (forall req now data,
      is_json req = true ->
      validate_payload fromisoformat (get_json req) true = Ok data ->
      update_donation fromisoformat donation_id req now tb
      = (Response 404 (Description "Donation not found"), tb))
   /\ delete_donation donation_id tb
      = (Response 404 (Description "Donation not found"), tb)
   /\ delete_donation donation_id (delete_donation donation_id tb).2
      = (Response 404 (Description "Donation not found"), tb))
  /\ (fits_integer donation_id = false ->
      (forall req now data,
         is_json req = true ->
         validate_payload fromisoformat (get_json req) true = Ok data ->
         update_donation fromisoformat donation_id req now tb
         = (Response 500 (Description internal_server_error), tb))
      /\ delete_donation donation_id tb
         = (Response 500 (Description internal_server_error), tb))
  /\ (forall tb0 : table,
        status (delete_donation donation_id tb0).1 = 204 ->
        (delete_donation donation_id tb0).2 !! donation_id = None).
Proof.
  intros Hrow. split; [|split].
  - intros Hi. split; [|split].
    + intros req now data Hj Hv. by eapply update_donation_missing.
    + by apply delete_donation_missing.
    + rewrite (delete_donation_missing donation_id tb Hi Hrow). simpl.
      by apply delete_donation_missing.
  - intros Hi. split.
    + intros req now data Hj Hv. by eapply update_donation_overflow.
    + by apply delete_donation_overflow.
  - intros tb0.
    destruct (delete_donation_cases donation_id tb0)
      as [(c & d & [->| ->] & ->)|(row & _ & _ & ->)]; simpl;
      try discriminate.
    intros _. apply lookup_delete_eq.
Qed.

Lemma missing_id_is_not_found_witness :
  let tb : table := (delete_donation 1 {[ 1 := alice_row 1 ]}).2 in
  tb !! 1 = None
  /\ delete_donation 1 tb
     = (Response 404 (Description "Donation not found"), tb)
  /\ delete_donation 1 (delete_donation 1 tb).2
     = (Response 404 (Description "Donation not found"), tb)
  /\ update_donation Iso.fromisoformat 1
       (Request true {[ "quantity_or_amount" := PInt 5 ]}) 9 tb
     = (Response 404 (Description "Donation not found"), tb).
Proof.
  intros tb.
  destruct (missing_id_is_not_found Iso.fromisoformat 1 tb)
    as (H & _ & _); [reflexivity|].
  destruct (H eq_refl) as (Hu & Hd & Hdd).
  split; [reflexivity|]. split; [exact Hd|]. split; [exact Hdd|].
  exact (Hu (Request true {[ "quantity_or_amount" := PInt 5 ]}) 9
            (Fields None None (Some (Int 5)) None) eq_refl eq_refl).
Defined.

(** C6, as stated, fails: the id 2^63 has no record, and a delete and an
    update with a valid field set on it are answered 500, not 404. *)
Lemma missing_id_beyond_64_bits :
  (∅ : table) !! (2 ^ 63) = None
  /\ delete_donation (2 ^ 63) ∅
     = (Response 500 (Description internal_server_error), ∅)
  /\ validate_payload Iso.fromisoformat
       {[ "quantity_or_amount" := PInt 5 ]} true
     = Ok (Fields None None (Some (Int 5)) None)
  /\ update_donation Iso.fromisoformat (2 ^ 63)
       (Request true {[ "quantity_or_amount" := PInt 5 ]}) 9 ∅
     = (Response 500 (Description internal_server_error), ∅).
Proof. repeat split; vm_compute; reflexivity. Qed.

(** ** Null values *)

(** A key bound to null reads like a key that is absent. *)
Lemma get_delete_null (payload : gmap string pyval) (key k : string) :
  payload !! key = Some PNone ->
  get (delete key payload) k = get payload k.
Proof.
  intros H. unfold get. destruct (decide (key = k)) as [->|Hne].
  - by rewrite lookup_delete_eq, H.
  - by rewrite lookup_delete_ne.
Qed.

(** The validator reads its payload through [get] only. *)
Lemma validate_payload_get_ext (fromisoformat : pystr -> option datetime)
  (p p' : gmap string pyval) (partial : bool) :
  (forall k, get p k = get p' k) ->
  validate_payload fromisoformat p partial
  = validate_payload fromisoformat p' partial.
Proof.
  intros H.
  unfold validate_payload, get_donation_type, get_str, get_int, get_date.
  by rewrite !H.
Qed.

(** A field that reads [None] is left out of the validated dict. *)
Lemma validate_payload_skips_none
  (fromisoformat : pystr -> option datetime)
  (payload : gmap string pyval) (out : fields) :
  validate_payload fromisoformat payload true = Ok out ->
  (get payload "donor_name" = PNone -> out_donor_name out = None)
  /\ (get payload "donation_type" = PNone -> out_donation_type out = None)
  /\ (get payload "quantity_or_amount" = PNone ->
        out_quantity_or_amount out = None)
  /\ (get payload "date" = PNone -> out_date out = None).
Proof.
  rewrite validate_payload_steps.
  destruct (get_str _ _ _) as [n|] eqn:Hn; [|discriminate].
  destruct (get_donation_type _ _) as [ty|] eqn:Hty; [|discriminate].
  destruct (get_int _ _ _) as [q|] eqn:Hq; [|discriminate].
  destruct (get_date _ _ _) as [d|] eqn:Hd; [|discriminate].
  intros [= <-]. simpl. repeat split; intros H.
  - rewrite (get_str_none _ _ _ H) in Hn. congruence.
  - rewrite (get_donation_type_none _ _ H) in Hty. congruence.
  - rewrite (get_int_none _ _ _ H) in Hq. congruence.
  - rewrite (get_date_none _ _ _ H) in Hd. congruence.
Qed.

(** In full mode a field that reads [None] is reported as missing, and the
    validation fails. *)
Lemma validate_payload_missing
  (fromisoformat : pystr -> option datetime)
  (payload : gmap string pyval) (key : string) :
  key ∈ field_order ->
  get payload key = PNone ->
  field_failure fromisoformat payload false key
  = Some (400, "Missing required field: " +:+ key)
  /\ exists d, validate_payload fromisoformat payload false = Abort 400 d.
Proof.
  intros Hkey H.
  assert (Hfail : exists d,
             validate_payload fromisoformat payload false = Abort 400 d).
  { destruct (validate_payload fromisoformat payload false) as [out|c d] eqn:Hv.
    - exfalso.
      destruct (validate_full_complete _ _ _ Hv) as (n & ty & q & dd & ->).
      revert Hv. rewrite validate_payload_steps.
      unfold field_order in Hkey.
      repeat (apply elem_of_cons in Hkey as [->|Hkey]);
        [| | | |by apply elem_of_nil in Hkey].
      + by rewrite (get_str_none _ _ _ H).
      + destruct (get_str _ _ _); [|discriminate].
        by rewrite (get_donation_type_none _ _ H).
      + destruct (get_str _ _ _); [|discriminate].
        destruct (get_donation_type _ _); [|discriminate].
        by rewrite (get_int_none _ _ _ H).
      + destruct (get_str _ _ _); [|discriminate].
        destruct (get_donation_type _ _); [|discriminate].
        destruct (get_int _ _ _); [|discriminate].
        by rewrite (get_date_none _ _ _ H).
    - exists d. by rewrite (validate_payload_code _ _ _ _ _ Hv). }
  split; [|exact Hfail].
  unfold field_order in Hkey.
  repeat (apply elem_of_cons in Hkey as [->|Hkey]);
    [| | | |by apply elem_of_nil in Hkey]; unfold field_failure; simpl.
  - by rewrite (get_str_none _ _ _ H).
  - by rewrite (get_donation_type_none _ _ H).
  - by rewrite (get_int_none _ _ _ H).
  - by rewrite (get_date_none _ _ _ H).
Qed.

(** C10. A field whose value is null is read like an absent field: the
    validator answers as on the payload without the key; in full mode the
    field is reported with the message of a missing required field and the
    validation fails; in partial mode the key is not in the validated output,
    and an update leaves the column of that key as it was. *)
Theorem null_field_is_absent
  (fromisoformat : pystr -> option datetime)
  (payload : gmap string pyval) (key : string) :
  payload !! key = Some PNone ->
  (forall partial,
     validate_payload fromisoformat payload partial
     = validate_payload fromisoformat (delete key payload) partial)
  /\ (key ∈ field_order ->
        field_failure fromisoformat payload false key
        = Some (400, "Missing required field: " +:+ key)
        /\ exists d, validate_payload fromisoformat payload false = Abort 400 d)
  /\ (forall out,
        validate_payload fromisoformat payload true = Ok out ->
        contains out key = false)
  /\ (forall donation_id now (tb : table) row row',
        tb !! donation_id = Some row ->
        (update_donation fromisoformat donation_id (Request true payload)
           now tb).2 !! donation_id = Some row' ->
        (key = "donor_name" ->
           Donation.donor_name row' = Donation.donor_name row)
        /\ (key = "donation_type" ->
              Donation.donation_type row' = Donation.donation_type row)
        /\ (key = "quantity_or_amount" ->
              Donation.quantity_or_amount row'
              = Donation.quantity_or_amount row)
        /\ (key = "date" -> Donation.date row' = Donation.date row)).
Proof.
  intros Hnull.
  assert (Hget : get payload key = PNone) by (unfold get; by rewrite Hnull).
  split; [|split; [|split]].
  - intros partial. apply validate_payload_get_ext.
    intros k. symmetry. by apply get_delete_null.
  - intros Hkey. by apply validate_payload_missing.
  - intros out Hv.
    destruct (validate_payload_skips_none _ _ _ Hv) as (Hn & Hty & Hq & Hd).
    unfold contains.
    destruct (String.eqb_spec key "donor_name") as [->|_];
      [by rewrite (Hn Hget)|].
    destruct (String.eqb_spec key "donation_type") as [->|_];
      [by rewrite (Hty Hget)|].
    destruct (String.eqb_spec key "quantity_or_amount") as [->|_];
      [by rewrite (Hq Hget)|].
    destruct (String.eqb_spec key "date") as [->|_];
      [by rewrite (Hd Hget)|].
    reflexivity.
  - intros donation_id now tb row row' Hrow.
    destruct (update_donation_cases fromisoformat donation_id
                (Request true payload) now tb)
      as [(c & d & _ & ->)|(data & r & _ & Hv & _ & Hr & _ & ->)]; simpl.
    + rewrite Hrow. intros [= <-]. repeat split.
    + rewrite lookup_insert_eq. intros [= <-].
      rewrite Hrow in Hr. injection Hr as <-.
      simpl in Hv.
      destruct (validate_payload_skips_none _ _ _ Hv) as (Hn & Hty & Hq & Hd).
      destruct (apply_fields_columns data row)
        as (_ & _ & _ & En & Ety & Eq & Ed).
      repeat split; intros ->; simpl.
      * by rewrite En, (Hn Hget).
      * by rewrite Ety, (Hty Hget).
      * by rewrite Eq, (Hq Hget).
      * by rewrite Ed, (Hd Hget).
Qed.

Lemma null_field_is_absent_witness :
  let payload : gmap string pyval :=
    <["donor_name" := PNone]> (get_json (alice "2024-01-15")) in
  payload !! "donor_name" = Some PNone
  /\ validate_payload Iso.fromisoformat payload false
     = Abort 400 "Missing required field: donor_name"
  /\ field_failure Iso.fromisoformat payload false "donor_name"
     = Some (400, "Missing required field: donor_name")
  /\ validate_payload Iso.fromisoformat payload true
     = validate_payload Iso.fromisoformat (delete "donor_name" payload) true.
Proof.
  intros payload.
  destruct (null_field_is_absent Iso.fromisoformat payload "donor_name")
    as (Heq & Hfull & _ & _); [reflexivity|].
  split; [reflexivity|]. split; [reflexivity|]. split.
  - apply Hfull. unfold field_order. apply elem_of_cons. by left.
  - exact (Heq true).
Defined.

(** ** The primary key *)

Lemma foldr_max_ge (a : Z) (ks : list Z) :
  a <= foldr Z.max a ks /\ Forall (fun k => k <= foldr Z.max a ks) ks.
Proof.
  induction ks as [|k ks [Ha Hks]]; simpl.
  - split; [lia | constructor].
  - split; [lia|]. constructor; [lia|].
    eapply Forall_impl; [exact Hks|]. simpl. intros x Hx. lia.
Qed.

Lemma foldr_max_elem (a : Z) (ks : list Z) : foldr Z.max a ks ∈ a :: ks.
Proof.
  induction ks as [|k ks IH]; simpl.
  - apply list_elem_of_here.
  - destruct (Z.max_spec k (foldr Z.max a ks)) as [[_ ->]|[_ ->]].
    + apply elem_of_cons in IH as [->|IH].
      * apply list_elem_of_here.
      * by do 2 apply list_elem_of_further.
    + apply list_elem_of_further, list_elem_of_here.
Qed.

Lemma elem_of_keys (tb : table) (k : Z) :
  k ∈ (map_to_list tb).*1 <-> is_Some (tb !! k).
Proof.
  rewrite list_elem_of_fmap. split.
  - intros [[k' r] [-> H]]. apply elem_of_map_to_list in H. by exists r.
  - intros [r H]. exists (k, r). split; [done|]. by apply elem_of_map_to_list.
Qed.

(** Every id of the table is below the id that the next insert gets. *)
Lemma next_id_gt (tb : table) (k : Z) :
  is_Some (tb !! k) -> k < next_id tb.
Proof.
  intros H. apply elem_of_keys in H. unfold next_id.
  destruct ((map_to_list tb).*1) as [|a ks]; [by apply elem_of_nil in H|].
  destruct (foldr_max_ge a ks) as [Ha Hks].
  apply elem_of_cons in H as [->|H]; [lia|].
  rewrite Forall_forall in Hks. specialize (Hks k H). lia.
Qed.

(** The next id is 1 in an empty table, and follows the largest id
    otherwise. *)
Lemma next_id_pred (tb : table) :
  (tb = ∅ /\ next_id tb = 1) \/ is_Some (tb !! (next_id tb - 1)).
Proof.
  unfold next_id. destruct ((map_to_list tb).*1) as [|a ks] eqn:Hl.
  - left. split; [|reflexivity].
    apply fmap_nil_inv in Hl. by apply map_to_list_empty_iff.
  - right. apply elem_of_keys. rewrite Hl.
    replace (foldr Z.max a ks + 1 - 1) with (foldr Z.max a ks) by lia.
    apply foldr_max_elem.
Qed.

Lemma next_id_unique (tb : table) (n : Z) :
  (forall k, is_Some (tb !! k) -> k < n) ->
  is_Some (tb !! (n - 1)) ->
  next_id tb = n.
Proof.
  intros Hall Hn. pose proof (next_id_gt tb _ Hn) as Hlt.
  destruct (next_id_pred tb) as [[-> _]|Hp].
  - rewrite lookup_empty in Hn. by destruct Hn.
  - apply Hall in Hp. lia.
Qed.

Lemma next_id_fresh (tb : table) : tb !! next_id tb = None.
Proof.
  destruct (tb !! next_id tb) eqn:H; [|reflexivity].
  assert (Hs : is_Some (tb !! next_id tb)) by eauto.
  apply next_id_gt in Hs. lia.
Qed.

Lemma next_id_insert_new (tb : table) (r : Donation.t) :
  next_id (<[next_id tb := r]> tb) = next_id tb + 1.
Proof.
  apply next_id_unique.
  - intros k. destruct (decide (k = next_id tb)) as [->|Hne]; [lia|].
    rewrite lookup_insert_ne by done. intros H%next_id_gt. lia.
  - replace (next_id tb + 1 - 1) with (next_id tb) by lia.
    rewrite lookup_insert_eq. eauto.
Qed.

Lemma next_id_insert_existing (tb : table) (k : Z) (r : Donation.t) :
  is_Some (tb !! k) -> next_id (<[k := r]> tb) = next_id tb.
Proof.
  intros Hk. apply next_id_unique.
  - intros j. destruct (decide (j = k)) as [->|Hne].
    + intros _. by apply next_id_gt.
    + rewrite lookup_insert_ne by done. apply next_id_gt.
  - destruct (next_id_pred tb) as [[-> _]|Hp].
    + rewrite lookup_empty in Hk. by destruct Hk.
    + destruct (decide (next_id tb - 1 = k)) as [->|Hne].
      * rewrite lookup_insert_eq. eauto.
      * by rewrite lookup_insert_ne.
Qed.

(** A request other than a delete does not lower the next id, and a
    successful create is given the next id and raises it by one. *)
Lemma step_next_id (fromisoformat : pystr -> option datetime) (o : op)
  (tb : table) :
  is_delete o = false ->
  next_id tb <= next_id (step fromisoformat o tb).2
  /\ forall i, created_id (step fromisoformat o tb).1 = Some i ->
       i = next_id tb /\ next_id (step fromisoformat o tb).2 = i + 1.
Proof.
  destruct o as [req t1 t2|donation_id req now|donation_id]; simpl;
    [| |discriminate]; intros _.
  - destruct (create_donation_cases fromisoformat req t1 t2 tb)
      as [(c0 & d & _ & ->)|(n & ty & q & d & _ & _ & _ & _ & ->)]; simpl.
    + split; [lia | discriminate].
    + rewrite next_id_insert_new. split; [lia|].
      unfold created_id. simpl. intros i [= <-]. split; reflexivity.
  - destruct (update_donation_cases fromisoformat donation_id req now tb)
      as [(c & d & _ & ->)|(data & row & _ & _ & _ & Hrow & _ & ->)]; simpl.
    + split; [lia | discriminate].
    + rewrite next_id_insert_existing by eauto. split; [lia | discriminate].
Qed.

(** C3, as amended. The id assigned by a create is the successor of the
    largest id in the table at that time (1 in an empty table): it is greater
    than the id of every existing record, and no existing record bears it.
    Over a sequence of requests without a delete, the assigned ids are
    strictly increasing. *)
Theorem created_id_exceeds_existing_ids
  (fromisoformat : pystr -> option datetime) :
  (forall req t1 t2 tb i,
     created_id (create_donation fromisoformat req t1 t2 tb).1 = Some i ->
     i = next_id tb
     /\ (forall k, is_Some (tb !! k) -> k < i)
     /\ tb !! i = None
     /\ exists row,
          (create_donation fromisoformat req t1 t2 tb).2 = <[i := row]> tb
          /\ Donation.id row = i)
  /\ (forall ops tb,
        forallb (fun o => negb (is_delete o)) ops = true ->
        StronglySorted Z.lt (assigned_ids (run fromisoformat ops tb).1)
        /\ Forall (fun i => next_id tb <= i)
             (assigned_ids (run fromisoformat ops tb).1)).
Proof.
  split.
  - intros req t1 t2 tb i.
    destruct (create_donation_cases fromisoformat req t1 t2 tb)
      as [(c0 & d & _ & ->)|(n & ty & q & d & _ & _ & _ & _ & ->)]; simpl; [discriminate|].
    unfold created_id. simpl. intros [= <-].
    split; [reflexivity|]. split; [apply next_id_gt|].
    split; [apply next_id_fresh|]. eexists. split; reflexivity.
  - induction ops as [|o ops IH]; intros tb Hops; simpl.
    + split; constructor.
    + simpl in Hops. apply andb_true_iff in Hops as [Ho Hops].
      apply negb_true_iff in Ho.
      destruct (step_next_id fromisoformat o tb Ho) as [Hle Hid].
      destruct (step fromisoformat o tb) as [r tb'] eqn:Hstep. simpl in *.
      destruct (IH tb' Hops) as [Hsorted Hge].
      destruct (run fromisoformat ops tb') as [rs tb''] eqn:Hrun. simpl in *.
      destruct (created_id r) as [i|] eqn:Hr.
      * destruct (Hid i eq_refl) as [-> Hnext]. split.
        -- constructor; [exact Hsorted|].
           eapply Forall_impl; [exact Hge|]. simpl. intros x Hx. lia.
        -- constructor; [lia|].
           eapply Forall_impl; [exact Hge|]. simpl. intros x Hx. lia.
      * split; [exact Hsorted|].
        eapply Forall_impl; [exact Hge|]. simpl. intros x Hx. lia.
Qed.

Lemma created_id_exceeds_existing_ids_witness :
  let tb : table := {[ 1 := alice_row 1; 4 := alice_row 4 ]} in
  created_id
    (create_donation Iso.fromisoformat (alice "2024-01-15") 2 3 tb).1 = Some 5
  /\ (forall k, is_Some (tb !! k) -> k < 5)
  /\ StronglySorted Z.lt
       (assigned_ids
          (run Iso.fromisoformat
             [Create (alice "2024-01-15") 0 0;
              Update 1 (Request true ∅) 1;
              Create (alice "2024-01-16") 2 2] ∅).1).
Proof.
  intros tb.
  destruct (created_id_exceeds_existing_ids Iso.fromisoformat) as [Hc Hr].
  destruct (Hc (alice "2024-01-15") 2 3 tb 5 eq_refl) as (_ & Hlt & _).
  split; [reflexivity|]. split; [exact Hlt|].
  apply Hr. reflexivity.
Defined.

(** C3, as stated, fails: after the record with the largest id is deleted,
    the next create is given that id again. *)
Lemma id_reused_after_delete :
  let ops := [Create (alice "2024-01-15") 0 0; Delete 1;
              Create (alice "2024-02-01") 1 1] in
  map status (run Iso.fromisoformat ops ∅).1 = [201; 204; 201]
  /\ assigned_ids (run Iso.fromisoformat ops ∅).1 = [1; 1]
  /\ ~ (forall ops, NoDup (assigned_ids (run Iso.fromisoformat ops ∅).1)).
Proof.
  intros ops. split; [vm_compute; reflexivity|].
  assert (Hids : assigned_ids (run Iso.fromisoformat ops ∅).1 = [1; 1])
    by (vm_compute; reflexivity).
  split; [exact Hids|].
  intros H. specialize (H ops). rewrite Hids in H.
  apply NoDup_cons in H as [Hin _]. apply Hin, list_elem_of_here.
Qed.

(** ** The invariant of the persisted records *)

Section Invariant.

Variable fromisoformat : pystr -> option datetime.

Lemma store_ok_later now now' (tb : table) :
  now <= now' -> store_ok now tb -> store_ok now' tb.
Proof.
  intros Hle H k r Hr. destruct (H k r Hr) as [Hok Hu]. split; [done | lia].
Qed.

Lemma store_ok_insert now (tb : table) k r :
  store_ok now tb -> row_ok r -> Donation.updated_at r <= now ->
  store_ok now (<[k := r]> tb).
Proof.
  intros H Hr Hu j r'. destruct (decide (j = k)) as [->|Hne].
  - rewrite lookup_insert_eq. by intros [= <-].
  - rewrite lookup_insert_ne by done. apply H.
Qed.

Lemma store_ok_create now tb req t1 t2 :
  store_ok now tb -> now <= t1 -> t1 <= t2 ->
  store_ok t2 (create_donation fromisoformat req t1 t2 tb).2.
Proof.
  intros H H1 H2.
  assert (Hlater : store_ok t2 tb) by (apply (store_ok_later now); [lia | done]).
  destruct (create_donation_cases fromisoformat req t1 t2 tb)
    as [(c0 & d & _ & ->)|(n & ty & q & d & _ & Hv & _ & _ & ->)]; simpl; [done|].
  destruct (validate_payload_sound _ _ _ _ Hv) as [Hty Hq].
  apply store_ok_insert; [done | | simpl; lia].
  repeat split; simpl; [by apply Hq | by apply Hty | lia].
Qed.

Lemma store_ok_update now tb donation_id req t :
  store_ok now tb -> now <= t ->
  store_ok t (update_donation fromisoformat donation_id req t tb).2.
Proof.
  intros H Ht.
  assert (Hlater : store_ok t tb) by (by apply (store_ok_later now)).
  destruct (update_donation_cases fromisoformat donation_id req t tb)
    as [(c & d & _ & ->)|(data & row & _ & Hv & _ & Hrow & _ & ->)]; simpl; [done|].
  destruct (validate_payload_sound _ _ _ _ Hv) as [Hty Hq].
  destruct (H _ _ Hrow) as [(Rq & Rty & Rt) Ru].
  destruct (apply_fields_columns data row)
    as (_ & Ec & _ & _ & Ety & Eq & _).
  apply store_ok_insert; [done | | simpl; lia].
  repeat split; simpl.
  - rewrite Eq. destruct (out_quantity_or_amount data); simpl; [by apply Hq | done].
  - rewrite Ety. destruct (out_donation_type data); simpl; [by apply Hty | done].
  - rewrite Ec. lia.
Qed.

Lemma store_ok_delete now (tb : table) donation_id :
  store_ok now tb -> store_ok now (delete_donation donation_id tb).2.
Proof.
  intros H. destruct (delete_donation_cases donation_id tb)
    as [(c0 & d0 & _ & ->)|(row0 & _ & _ & ->)]; simpl; [done|].
  intros k r Hr. apply lookup_delete_Some in Hr as [_ Hr]. exact (H k r Hr).
Qed.

Lemma chronological_store_ok now tb :
  chronological fromisoformat now tb -> store_ok now tb.
Proof.
  induction 1 as [now|now tb req t1 t2 _ IH H1 H2
                  |now tb donation_id req t _ IH Ht
                  |now tb donation_id _ IH].
  - intros k r. by rewrite lookup_empty.
  - by apply (store_ok_create now).
  - by apply (store_ok_update now).
  - by apply store_ok_delete.
Qed.

(** The quantity and the type of the records, whatever the clock reads. *)
Lemma row_valid_step (o : op) (tb : table) :
  (forall k r, tb !! k = Some r -> row_valid r) ->
  forall k r, (step fromisoformat o tb).2 !! k = Some r -> row_valid r.
Proof.
  intros H. destruct o as [req t1 t2|donation_id req now|donation_id]; simpl.
  - destruct (create_donation_cases fromisoformat req t1 t2 tb)
      as [(c & d & _ & ->)|(n & ty & q & d & _ & Hv & _ & _ & ->)]; simpl;
      [done|].
    destruct (validate_payload_sound _ _ _ _ Hv) as [Hty Hq].
    intros k r. destruct (decide (k = next_id tb)) as [->|Hne].
    + rewrite lookup_insert_eq. intros [= <-].
      split; simpl; [by apply Hq | by apply Hty].
    + rewrite lookup_insert_ne by done. apply H.
  - destruct (update_donation_cases fromisoformat donation_id req now tb)
      as [(c & d & _ & ->)|(data & row & _ & Hv & _ & Hrow & _ & ->)]; simpl;
      [done|].
    destruct (validate_payload_sound _ _ _ _ Hv) as [Hty Hq].
    destruct (H _ _ Hrow) as [Rq Rty].
    destruct (apply_fields_columns data row)
      as (_ & _ & _ & _ & Ety & Eq & _).
    intros k r. destruct (decide (k = donation_id)) as [->|Hne].
    + rewrite lookup_insert_eq. intros [= <-]. split; simpl.
      * rewrite Eq. destruct (out_quantity_or_amount data); simpl;
          [by apply Hq | done].
      * rewrite Ety. destruct (out_donation_type data); simpl;
          [by apply Hty | done].
    + rewrite lookup_insert_ne by done. apply H.
  - destruct (delete_donation_cases donation_id tb)
      as [(c & d & _ & ->)|(row & _ & _ & ->)]; simpl; [done|].
    intros k r Hr. apply lookup_delete_Some in Hr as [_ Hr]. exact (H k r Hr).
Qed.

Lemma reachable_row_valid tb :
  reachable fromisoformat tb ->
  forall k r, tb !! k = Some r -> row_valid r.
Proof.
  induction 1 as [|tb req t1 t2 _ IH|tb donation_id req t _ IH
                  |tb donation_id _ IH].
  - intros k r. by rewrite lookup_empty.
  - exact (row_valid_step (Create req t1 t2) tb IH).
  - exact (row_valid_step (Update donation_id req t) tb IH).
  - exact (row_valid_step (Delete donation_id) tb IH).
Qed.

End Invariant.

(** C7, as amended. Every record of a table reached from the empty table
    has a quantity of at least 1 and one of the four donation types, whatever
    the clock reads.  When the readings of the clock are taken in
    chronological order, every record also has an [updated_at] no earlier
    than its [created_at]; and each of create, update and delete, run at
    clock readings that follow the last write, preserves all three on every
    table. *)
Theorem persisted_records_satisfy_invariant
  (fromisoformat : pystr -> option datetime) :
  (forall tb,
     reachable fromisoformat tb ->
     forall k r, tb !! k = Some r ->
       1 <= Donation.quantity_or_amount r
       /\ Donation.donation_type r ∈ allowed_types)
  /\ (forall now tb,
        chronological fromisoformat now tb ->
        forall k r, tb !! k = Some r -> row_ok r)
  /\ (forall now tb req t1 t2,
        store_ok now tb -> now <= t1 -> t1 <= t2 ->
        store_ok t2 (create_donation fromisoformat req t1 t2 tb).2)
  /\ (forall now tb donation_id req t,
        store_ok now tb -> now <= t ->
        store_ok t (update_donation fromisoformat donation_id req t tb).2)
  /\ (forall now tb donation_id,
        store_ok now tb -> store_ok now (delete_donation donation_id tb).2).
Proof.
  split; [|split; [|split; [|split]]].
  - intros tb Hreach k r Hr.
    exact (reachable_row_valid fromisoformat tb Hreach k r Hr).
  - intros now tb Hreach k r Hr.
    by destruct (chronological_store_ok fromisoformat now tb Hreach k r Hr).
  - intros. by eapply store_ok_create.
  - intros. by eapply store_ok_update.
  - intros. by apply store_ok_delete.
Qed.

Lemma persisted_records_satisfy_invariant_witness :
  let tb : table :=
    (update_donation Iso.fromisoformat 1
       (Request true {[ "quantity_or_amount" := PBool true ]}) 9
       (create_donation Iso.fromisoformat (alice "2024-01-15") 3 4 ∅).2).2 in
  tb !! 1 = Some (Donation.Row 1 (u "Alice") (u "food") 1 (Date 2024 1 15) 3 9)
  /\ chronological Iso.fromisoformat 9 tb
  /\ reachable Iso.fromisoformat tb
  /\ row_ok (Donation.Row 1 (u "Alice") (u "food") 1 (Date 2024 1 15) 3 9).
Proof.
  intros tb.
  assert (Hchrono : chronological Iso.fromisoformat 9 tb).
  { apply (chrono_update _ 4); [|lia].
    apply (chrono_create _ 0); [apply chrono_init | lia | lia]. }
  assert (Hreach : reachable Iso.fromisoformat tb).
  { apply reach_update, reach_create, reach_init. }
  split; [reflexivity|]. split; [exact Hchrono|]. split; [exact Hreach|].
  destruct (persisted_records_satisfy_invariant Iso.fromisoformat)
    as (_ & H & _).
  exact (H 9 tb Hchrono 1 _ eq_refl).
Defined.

(** C7, as stated, fails: a create whose second reading of the clock is
    earlier than the first stores a record whose [updated_at] is before its
    [created_at]. *)
Lemma created_at_after_updated_at :
  let tb : table :=
    (create_donation Iso.fromisoformat (alice "2024-01-15") 5 3 ∅).2 in
  reachable Iso.fromisoformat tb
  /\ tb !! 1 = Some (Donation.Row 1 (u "Alice") (u "food") 3 (Date 2024 1 15) 5 3)
  /\ ~ row_ok (Donation.Row 1 (u "Alice") (u "food") 3 (Date 2024 1 15) 5 3).
Proof.
  intros tb. split; [apply reach_create, reach_init|].
  split; [reflexivity|]. intros (_ & _ & H). simpl in H. lia.
Qed.

(** * Further properties of the handlers *)

(** ** Status codes *)


(** ** Keys *)

Lemma well_keyed_insert (tb : table) k r :
  well_keyed tb -> Donation.id r = k -> well_keyed (<[k := r]> tb).
Proof.
  intros H Hr j r'. destruct (decide (j = k)) as [->|Hne].
  - rewrite lookup_insert_eq. by intros [= <-].
  - rewrite lookup_insert_ne by done. apply H.
Qed.

Lemma well_keyed_step (fromisoformat : pystr -> option datetime) (o : op)
  (tb : table) :
  well_keyed tb -> well_keyed (step fromisoformat o tb).2.
Proof.
  intros H. destruct o as [req t1 t2|donation_id req now|donation_id]; simpl.
  - destruct (create_donation_cases fromisoformat req t1 t2 tb)
      as [(c0 & d & _ & ->)|(n & ty & q & d & _ & _ & _ & _ & ->)]; simpl; [done|].
    by apply well_keyed_insert.
  - destruct (update_donation_cases fromisoformat donation_id req now tb)
      as [(c & d & _ & ->)|(data & row & _ & _ & _ & Hrow & _ & ->)]; simpl; [done|].
    apply well_keyed_insert; [done|]. simpl.
    destruct (apply_fields_columns data row) as (-> & _). by apply H.
  - destruct (delete_donation_cases donation_id tb)
      as [(c0 & d0 & _ & ->)|(row0 & _ & _ & ->)]; simpl; [done|].
    intros k r Hr. apply lookup_delete_Some in Hr as [_ Hr]. exact (H k r Hr).
Qed.

Lemma next_id_positive (tb : table) :
  (forall k, is_Some (tb !! k) -> 1 <= k) -> 1 <= next_id tb.
Proof.
  intros H. destruct (next_id_pred tb) as [[_ ->]|Hp]; [lia|].
  apply H in Hp. lia.
Qed.

(** What holds of the empty table and is kept by every request holds of
    every table reached from the empty table. *)
Lemma reachable_invariant (fromisoformat : pystr -> option datetime)
  (P : table -> Prop) :
  P ∅ ->
  (forall o tb, P tb -> P (step fromisoformat o tb).2) ->
  forall tb, reachable fromisoformat tb -> P tb.
Proof.
  intros Hinit Hstep tb.
  induction 1 as [|tb req t1 t2 _ IH|tb donation_id req t _ IH
                  |tb donation_id _ IH].
  - exact Hinit.
  - exact (Hstep (Create req t1 t2) tb IH).
  - exact (Hstep (Update donation_id req t) tb IH).
  - exact (Hstep (Delete donation_id) tb IH).
Qed.

(** The ids of the table are at least 1 and within 64 bits. *)
Lemma ids_in_range_step (fromisoformat : pystr -> option datetime) (o : op)
  (tb : table) :
  (forall k, is_Some (tb !! k) -> 1 <= k /\ fits_integer k = true) ->
  forall k, is_Some ((step fromisoformat o tb).2 !! k) ->
    1 <= k /\ fits_integer k = true.
Proof.
  intros IP. destruct o as [req t1 t2|donation_id req now|donation_id]; simpl.
  - destruct (create_donation_cases fromisoformat req t1 t2 tb)
      as [(c & d & _ & ->)|(n & ty & q & d & _ & _ & _ & Hi & ->)]; simpl;
      [done|].
    intros k. destruct (decide (k = next_id tb)) as [->|Hne].
    + intros _. split; [|done]. apply next_id_positive.
      intros j Hj. by apply IP.
    + rewrite lookup_insert_ne by done. apply IP.
  - destruct (update_donation_cases fromisoformat donation_id req now tb)
      as [(c & d & _ & ->)|(data & row & _ & _ & _ & Hrow & _ & ->)]; simpl;
      [done|].
    intros k. destruct (decide (k = donation_id)) as [->|Hne].
    + intros _. apply IP. eauto.
    + rewrite lookup_insert_ne by done. apply IP.
  - destruct (delete_donation_cases donation_id tb)
      as [(c & d & _ & ->)|(row & _ & _ & ->)]; simpl; [done|].
    intros k [r Hr]. apply lookup_delete_Some in Hr as [_ Hr]. apply IP. eauto.
Qed.

Lemma reachable_ids_in_range (fromisoformat : pystr -> option datetime)
  (tb : table) :
  reachable fromisoformat tb ->
  forall k, is_Some (tb !! k) -> 1 <= k /\ fits_integer k = true.
Proof.
  apply (reachable_invariant fromisoformat
           (fun tb => forall k, is_Some (tb !! k) ->
                                1 <= k /\ fits_integer k = true)).
  - intros k [r Hr]. by rewrite lookup_empty in Hr.
  - intros o tb0. apply ids_in_range_step.
Qed.

Lemma reachable_well_keyed (fromisoformat : pystr -> option datetime)
  (tb : table) :
  reachable fromisoformat tb -> well_keyed tb.
Proof.
  apply (reachable_invariant fromisoformat well_keyed).
  - intros k r. by rewrite lookup_empty.
  - intros o tb0. apply well_keyed_step.
Qed.

(** X1. In every table reached from the empty table each record is stored
    under its own id, and every id is at least 1. *)
Theorem reachable_ids_well_keyed
  (fromisoformat : pystr -> option datetime) (tb : table) :
  reachable fromisoformat tb ->
  forall k r, tb !! k = Some r -> Donation.id r = k /\ 1 <= k.
Proof.
  intros Hreach k r Hr. split.
  - by apply (reachable_well_keyed fromisoformat tb Hreach).
  - apply (reachable_ids_in_range fromisoformat tb Hreach). eauto.
Qed.

Lemma reachable_ids_well_keyed_witness :
  let tb : table :=
    (create_donation Iso.fromisoformat (alice "2024-01-15") 3 4 ∅).2 in
  reachable Iso.fromisoformat tb
  /\ Donation.id (alice_row 1) = 1 /\ 1 <= 1.
Proof.
  intros tb.
  assert (Hreach : reachable Iso.fromisoformat tb).
  { apply reach_create, reach_init. }
  split; [exact Hreach|].
  exact (reachable_ids_well_keyed Iso.fromisoformat tb Hreach 1
           (Donation.Row 1 (u "Alice") (u "food") 3 (Date 2024 1 15) 3 4)
           eq_refl).
Defined.

(** ** The listing *)

#[local] Instance id_desc_trans : Transitive id_desc.
Proof. intros r1 r2 r3. unfold id_desc. lia. Qed.

#[local] Instance id_desc_total : Total id_desc.
Proof. intros r1 r2. unfold id_desc. lia. Qed.

Lemma elem_of_rows (tb : table) (r : Donation.t) :
  r ∈ (map_to_list tb).*2 <-> exists k, tb !! k = Some r.
Proof.
  rewrite list_elem_of_fmap. split.
  - intros [[k r'] [-> H]]. exists k. by apply elem_of_map_to_list.
  - intros [k H]. exists (k, r). split; [done|]. by apply elem_of_map_to_list.
Qed.

(** The rows of the listing are the rows of the table. *)
Lemma elem_of_sorted_rows (tb : table) (r : Donation.t) :
  r ∈ merge_sort id_desc (map_to_list tb).*2 <-> exists k, tb !! k = Some r.
Proof. by rewrite merge_sort_Permutation, elem_of_rows. Qed.

(** In a table where each row is stored under its id, the ids of the rows
    are the keys, without repetition. *)
Lemma rows_ids_NoDup (tb : table) :
  well_keyed tb -> NoDup (Donation.id <$> (map_to_list tb).*2).
Proof.
  intros Hk.
  replace (Donation.id <$> (map_to_list tb).*2) with ((map_to_list tb).*1).
  { apply NoDup_fst_map_to_list. }
  rewrite <- list_fmap_compose. apply list_fmap_ext.
  intros i [k r] H. simpl. symmetry. apply Hk.
  apply elem_of_map_to_list. by eapply list_elem_of_lookup_2.
Qed.

Lemma strictly_sorted_of_NoDup (l : list Donation.t) :
  StronglySorted id_desc l -> NoDup (Donation.id <$> l) ->
  StronglySorted (fun r1 r2 => Donation.id r2 < Donation.id r1) l.
Proof.
  induction 1 as [|r l Hs IH Hall]; intros Hnd; [constructor|].
  rewrite fmap_cons in Hnd. apply NoDup_cons in Hnd as [Hr Hnd].
  constructor; [by apply IH|].
  rewrite Forall_forall in Hall. apply Forall_forall. intros x Hx.
  specialize (Hall x Hx). unfold id_desc in Hall.
  assert (Donation.id x <> Donation.id r).
  { intros E. apply Hr. rewrite <- E. apply list_elem_of_fmap. eauto. }
  lia.
Qed.

(** X2. The listing of a table where each row is stored under its id has
    one entry for each record, that record's [to_dict], and its ids are
    strictly decreasing. *)
Theorem list_donations_sorted_complete (tb : table) :
  well_keyed tb ->
  StronglySorted (fun d1 d2 => Donation.d_id d2 < Donation.d_id d1)
                 (list_donations tb)
  /\ length (list_donations tb) = size tb
  /\ (forall d, d ∈ list_donations tb
        <-> exists k r, tb !! k = Some r /\ d = Donation.to_dict r).
Proof.
  intros Hk. unfold list_donations. simpl. split; [|split].
  - apply StronglySorted_fmap
      with (R1 := fun r1 r2 => Donation.id r2 < Donation.id r1); [done|].
    apply strictly_sorted_of_NoDup; [apply StronglySorted_merge_sort; apply _|].
    rewrite merge_sort_Permutation. by apply rows_ids_NoDup.
  - rewrite length_fmap, merge_sort_Permutation, length_fmap.
    apply length_map_to_list.
  - intros d. rewrite list_elem_of_fmap. split.
    + intros [r [-> Hr]]. apply elem_of_sorted_rows in Hr as [k Hr]. eauto.
    + intros (k & r & Hr & ->). exists r. split; [done|].
      apply elem_of_sorted_rows. eauto.
Qed.

Lemma list_donations_sorted_complete_witness :
  let tb : table :=
    (step Iso.fromisoformat (Create (alice "2024-01-16") 1 1)
       (step Iso.fromisoformat (Create (alice "2024-01-15") 0 0) ∅).2).2 in
  Donation.d_id <$> list_donations tb = [2; 1]
  /\ StronglySorted (fun d1 d2 => Donation.d_id d2 < Donation.d_id d1)
                    (list_donations tb)
  /\ length (list_donations tb) = size tb.
Proof.
  intros tb.
  assert (Hk : well_keyed tb).
  { do 2 apply well_keyed_step. intros k r. by rewrite lookup_empty. }
  destruct (list_donations_sorted_complete tb Hk) as (Hs & Hl & _).
  split; [vm_compute; reflexivity|]. split; [exact Hs | exact Hl].
Defined.

Lemma elem_of_list_donations (tb : table) (d : Donation.dict) :
  d ∈ list_donations tb
  <-> exists k r, tb !! k = Some r /\ d = Donation.to_dict r.
Proof.
  unfold list_donations. simpl. rewrite list_elem_of_fmap. split.
  - intros [r [-> Hr]]. apply elem_of_sorted_rows in Hr as [k Hr]. eauto.
  - intros (k & r & Hr & ->). exists r. split; [done|].
    apply elem_of_sorted_rows. eauto.
Qed.

(** X3. After a successful create on a table where each row is stored
    under its id, the listing starts with the record just created, as the
    response to the create shows it. *)
Theorem created_record_listed_first
  (fromisoformat : pystr -> option datetime)
  (req : request) (t1 t2 : Z) (tb : table) (d : Donation.dict) :
  well_keyed tb ->
  (create_donation fromisoformat req t1 t2 tb).1 = Response 201 (Json d) ->
  head (list_donations (create_donation fromisoformat req t1 t2 tb).2)
  = Some d.
Proof.
  intros Hk.
  destruct (create_donation_cases fromisoformat req t1 t2 tb)
    as [(c0 & e & _ & ->)|(n & ty & q & dd & _ & _ & _ & _ & ->)]; simpl; [discriminate|].
  intros [= <-]. unfold list_donations. simpl.
  set (new := Donation.Row (next_id tb) n ty (int_value q) dd t1 t2).
  set (tb' := <[next_id tb := new]> tb).
  assert (Hnew : new ∈ merge_sort id_desc (map_to_list tb').*2).
  { apply elem_of_sorted_rows. exists (next_id tb). apply lookup_insert_eq. }
  pose proof (StronglySorted_merge_sort id_desc (map_to_list tb').*2) as Hs.
  assert (Hin : forall r, r ∈ merge_sort id_desc (map_to_list tb').*2 ->
                          r = new \/ Donation.id r < next_id tb).
  { intros r Hr. apply elem_of_sorted_rows in Hr as [k Hr]. unfold tb' in Hr.
    destruct (decide (k = next_id tb)) as [->|Hne].
    - rewrite lookup_insert_eq in Hr. left. congruence.
    - rewrite lookup_insert_ne in Hr by done. right.
      rewrite (Hk k r Hr). apply next_id_gt. eauto. }
  destruct (merge_sort id_desc (map_to_list tb').*2) as [|h l].
  { by apply elem_of_nil in Hnew. }
  simpl. f_equal. f_equal.
  apply StronglySorted_cons in Hs as [Hall _].
  destruct (Hin h (list_elem_of_here _ _)) as [->|Hlt]; [reflexivity|].
  exfalso. apply elem_of_cons in Hnew as [E|Hl].
  - rewrite <- E in Hlt. simpl in Hlt. lia.
  - rewrite Forall_forall in Hall. specialize (Hall new Hl).
    unfold id_desc in Hall. simpl in Hall. lia.
Qed.

Lemma created_record_listed_first_witness :
  let tb : table :=
    (step Iso.fromisoformat (Create (alice "2024-01-15") 0 0) ∅).2 in
  head (list_donations
          (create_donation Iso.fromisoformat (alice "2024-01-16") 1 2 tb).2)
  = Some (Donation.Dict 2 (u "Alice") (u "food") 3 (u "2024-01-16")).
Proof.
  intros tb.
  apply (created_record_listed_first Iso.fromisoformat
           (alice "2024-01-16") 1 2 tb).
  - apply well_keyed_step. intros k r. by rewrite lookup_empty.
  - reflexivity.
Defined.

(** X5. Deleting the record that a create has just made, by the id of the
    response, answers 204 and gives back the table as it was before the
    create. *)
Theorem delete_undoes_create
  (fromisoformat : pystr -> option datetime)
  (req : request) (t1 t2 : Z) (tb : table) (i : Z) :
  created_id (create_donation fromisoformat req t1 t2 tb).1 = Some i ->
  delete_donation i (create_donation fromisoformat req t1 t2 tb).2
  = (Response 204 Empty, tb).
Proof.
  destruct (create_donation_cases fromisoformat req t1 t2 tb)
    as [(c0 & e & _ & ->)|(n & ty & q & dd & _ & _ & _ & Hi & ->)]; simpl;
    [discriminate|].
  unfold created_id. simpl. intros [= <-].
  erewrite delete_donation_found; [|exact Hi|apply lookup_insert_eq].
  by rewrite delete_insert_eq, (delete_id _ _ (next_id_fresh tb)).
Qed.

Lemma delete_undoes_create_witness :
  let tb : table := {[ 1 := alice_row 1 ]} in
  delete_donation 2
    (create_donation Iso.fromisoformat (alice "2024-01-16") 1 2 tb).2
  = (Response 204 Empty, tb).
Proof.
  intros tb.
  exact (delete_undoes_create Iso.fromisoformat (alice "2024-01-16") 1 2 tb 2
           eq_refl).
Defined.

Lemma apply_fields_again (data : fields) (row : Donation.t) (t1 t2 : Z) :
  Donation.set_updated_at t2
    (apply_fields data (Donation.set_updated_at t1 (apply_fields data row)))
  = Donation.set_updated_at t2 (apply_fields data row).
Proof. by destruct data as [[n|] [ty|] [q|] [d|]], row. Qed.

(** X6. An update is idempotent up to the clock: the same update made a
    second time gives the same response and the same table as that update
    made once at the second reading of the clock. *)
Theorem update_twice_is_update_once
  (fromisoformat : pystr -> option datetime)
  (donation_id : Z) (req : request) (t1 t2 : Z) (tb : table) :
  update_donation fromisoformat donation_id req t2
    (update_donation fromisoformat donation_id req t1 tb).2
  = update_donation fromisoformat donation_id req t2 tb.
Proof.
  destruct (update_donation_cases fromisoformat donation_id req t1 tb)
    as [(c & d & _ & ->)|(data & row & Hj & Hv & Hi & Hrow & Hs & ->)]; simpl;
    [reflexivity|].
  rewrite (update_donation_found _ _ _ t2 tb data row Hj Hv Hi Hrow Hs).
  erewrite update_donation_found;
    [|exact Hj|exact Hv|exact Hi|apply lookup_insert_eq|exact Hs].
  by rewrite apply_fields_again, insert_insert_eq.
Qed.

(** X7. After a delete answered 204, the listing has the entries it had
    before except the one of the deleted id, in a table where each row is
    stored under its id. *)
Theorem deleted_record_not_listed
  (donation_id : Z) (tb : table) :
  well_keyed tb ->
  status (delete_donation donation_id tb).1 = 204 ->
  forall d,
    d ∈ list_donations (delete_donation donation_id tb).2
    <-> d ∈ list_donations tb /\ Donation.d_id d <> donation_id.
Proof.
  intros Hk.
  destruct (delete_donation_cases donation_id tb)
    as [(c & e & [->| ->] & ->)|(row & _ & Hrow & ->)]; simpl;
    try discriminate.
  intros _ d. rewrite !elem_of_list_donations. split.
  - intros (k & r & Hr & ->). apply lookup_delete_Some in Hr as [Hne Hr].
    split; [eauto|]. simpl. by rewrite (Hk k r Hr).
  - intros [(k & r & Hr & ->) Hne]. simpl in Hne. exists k, r.
    split; [|done]. apply lookup_delete_Some. split; [|done].
    rewrite (Hk k r Hr) in Hne. congruence.
Qed.

Lemma deleted_record_not_listed_witness :
  let tb : table :=
    (step Iso.fromisoformat (Create (alice "2024-01-16") 1 1)
       (step Iso.fromisoformat (Create (alice "2024-01-15") 0 0) ∅).2).2 in
  Donation.d_id <$> list_donations tb = [2; 1]
  /\ Donation.d_id <$> list_donations (delete_donation 1 tb).2 = [2]
  /\ forall d,
       d ∈ list_donations (delete_donation 1 tb).2
       <-> d ∈ list_donations tb /\ Donation.d_id d <> 1.
Proof.
  intros tb. split; [vm_compute; reflexivity|]. split; [vm_compute; reflexivity|].
  apply (deleted_record_not_listed 1 tb).
  - do 2 apply well_keyed_step. intros k r. by rewrite lookup_empty.
  - reflexivity.
Defined.

(** ** More on the validator *)

Lemma lstrip_fixed (t : pystr) :
  (forall c, head t = Some c -> isspace c = false) -> lstrip t = t.
Proof.
  destruct t as [|c t]; simpl; [reflexivity|].
  intros H. by rewrite (H c eq_refl).
Qed.

Lemma rstrip_fixed (t : pystr) :
  (forall c, last t = Some c -> isspace c = false) -> rstrip t = t.
Proof.
  intros H. unfold rstrip. rewrite lstrip_fixed.
  - apply reverse_involutive.
  - intros c. rewrite head_reverse. apply H.
Qed.

(** Stripping a stripped string changes nothing. *)
Lemma strip_strip (s : pystr) : strip (strip s) = strip s.
Proof.
  destruct (strip_trimmed s) as (l & r & _ & _ & _ & Hh & Hl).
  unfold strip at 1. rewrite (lstrip_fixed _ Hh). by apply rstrip_fixed.
Qed.

Lemma get_str_clean (payload : gmap string pyval) (partial : bool)
  (key : string) (t : pystr) :
  get_str payload partial key = Ok (Some t) -> t <> [] /\ strip t = t.
Proof.
  unfold get_str.
  destruct (get payload key) as [| | | |s| |], partial; simpl; try discriminate.
  all: destruct (strip s) eqn:Hs; [discriminate|]; intros [= <-];
    split; [discriminate | rewrite <- Hs; apply strip_strip].
Qed.

Lemma allowed_types_stripped (ty : pystr) :
  ty ∈ allowed_types -> strip ty = ty.
Proof.
  unfold allowed_types. intros H.
  repeat (apply elem_of_cons in H as [->|H]); [reflexivity..|].
  by apply elem_of_nil in H.
Qed.

(** X8. When [donation_type] is present, it is accepted exactly when it is
    a string whose [strip] is one of the four allowed types, and the
    validated value is that stripped string; a string that strips to
    something else is rejected with the message that lists the allowed
    types, and a value that is not a string, or strips to nothing, with the
    message of [get_str]. *)
Theorem donation_type_accepted_iff_allowed
  (payload : gmap string pyval) (partial : bool) (v : pyval) :
  get payload "donation_type" = v -> v <> PNone ->
  ((exists t, get_donation_type payload partial = Ok (Some t))
   <-> exists s, v = PStr s /\ strip s ∈ allowed_types)
  /\ (forall s, v = PStr s -> strip s ∈ allowed_types ->
        get_donation_type payload partial = Ok (Some (strip s)))
  /\ (forall s, v = PStr s -> strip s <> [] -> strip s ∉ allowed_types ->
        get_donation_type payload partial
        = Abort 400
            "donation_type must be one of ['clothing', 'food', 'money', 'other']")
  /\ ((forall s, v = PStr s -> strip s = []) ->
        get_donation_type payload partial
        = Abort 400 "donation_type must be a non-empty string").
Proof.
  intros Hv Hn.
  pose proof (get_str_present payload partial "donation_type" v Hv Hn) as Hg.
  assert (Hacc : forall s, v = PStr s -> strip s ∈ allowed_types ->
            get_donation_type payload partial = Ok (Some (strip s))).
  { intros s -> Hin. unfold get_donation_type. rewrite Hg. simpl.
    destruct (strip s) eqn:Hs.
    - unfold allowed_types in Hin.
      repeat (apply elem_of_cons in Hin as [Hin|Hin]); try discriminate.
      by apply elem_of_nil in Hin.
    - simpl. by rewrite bool_decide_eq_true_2. }
  split; [split|split; [|split]].
  - intros [t Ht]. unfold get_donation_type in Ht. rewrite Hg in Ht.
    destruct v; simpl in Ht; try discriminate.
    exists s. split; [reflexivity|].
    destruct (strip s) eqn:Hs; [discriminate|]. simpl in Ht.
    destruct (bool_decide _) eqn:Hin; [|discriminate].
    by apply bool_decide_eq_true in Hin.
  - intros (s & E & Hin). eauto.
  - exact Hacc.
  - intros s -> Hne Hnot. unfold get_donation_type. rewrite Hg. simpl.
    destruct (strip s) eqn:Hs; [done|]. simpl.
    by rewrite bool_decide_eq_false_2.
  - intros Hall. unfold get_donation_type. rewrite Hg.
    destruct v; simpl; try reflexivity. by rewrite (Hall s eq_refl).
Qed.

Lemma donation_type_accepted_iff_allowed_witness :
  let payload : gmap string pyval :=
    {[ "donation_type" := PStr (u " food ") ]} in
  get_donation_type payload true = Ok (Some (u "food"))
  /\ get_donation_type {[ "donation_type" := PStr (u "clothes") ]} true
     = Abort 400
         "donation_type must be one of ['clothing', 'food', 'money', 'other']".
Proof.
  intros payload. split.
  - destruct (donation_type_accepted_iff_allowed payload true
                (PStr (u " food "))) as (_ & H & _);
      [reflexivity | discriminate |].
    apply (H (u " food ") eq_refl). vm_compute.
    apply list_elem_of_further, list_elem_of_here.
  - destruct (donation_type_accepted_iff_allowed
                {[ "donation_type" := PStr (u "clothes") ]} true
                (PStr (u "clothes"))) as (_ & _ & H & _);
      [reflexivity | discriminate |].
    apply (H (u "clothes") eq_refl); [discriminate|].
    apply not_elem_of_cons; split; [discriminate|].
    apply not_elem_of_cons; split; [discriminate|].
    apply not_elem_of_cons; split; [discriminate|].
    apply not_elem_of_cons; split; [discriminate|].
    apply not_elem_of_nil.
Defined.

Lemma get_str_some_iff (payload : gmap string pyval) (partial : bool)
  (key : string) (r : option pystr) :
  get_str payload partial key = Ok r ->
  (is_Some r <-> get payload key <> PNone).
Proof.
  unfold get_str.
  destruct (get payload key) as [| | | |s| |], partial; simpl; try discriminate.
  - intros [= <-]. split; [by intros [? [=]] | done].
  - destruct (strip s); [discriminate|]. intros [= <-]. split; [done | eauto].
  - destruct (strip s); [discriminate|]. intros [= <-]. split; [done | eauto].
Qed.

Lemma get_donation_type_some_iff (payload : gmap string pyval)
  (partial : bool) (r : option pystr) :
  get_donation_type payload partial = Ok r ->
  (is_Some r <-> get payload "donation_type" <> PNone).
Proof.
  unfold get_donation_type.
  destruct (get_str payload partial "donation_type") as [[t|]|] eqn:Hg;
    simpl; [| |discriminate].
  - destruct (bool_decide _); [|discriminate]. intros [= <-].
    rewrite <- (get_str_some_iff _ _ _ _ Hg). split; eauto.
  - intros [= <-]. apply (get_str_some_iff _ _ _ _ Hg).
Qed.

Lemma get_int_some_iff (payload : gmap string pyval) (partial : bool)
  (key : string) (r : option pyint) :
  get_int payload partial key = Ok r ->
  (is_Some r <-> get payload key <> PNone).
Proof.
  unfold get_int.
  destruct (get payload key) as [|b|z| | | |], partial; simpl; try discriminate.
  - intros [= <-]. split; [by intros [? [=]] | done].
  - destruct (_ <? _); [discriminate|]. intros [= <-]. split; [done | eauto].
  - destruct (_ <? _); [discriminate|]. intros [= <-]. split; [done | eauto].
  - destruct (_ <? _); [discriminate|]. intros [= <-]. split; [done | eauto].
  - destruct (_ <? _); [discriminate|]. intros [= <-]. split; [done | eauto].
Qed.

Lemma get_date_some_iff (fromisoformat : pystr -> option datetime)
  (payload : gmap string pyval) (partial : bool) (r : option date) :
  get_date fromisoformat payload partial = Ok r ->
  (is_Some r <-> get payload "date" <> PNone).
Proof.
  unfold get_date, parse_iso_date.
  destruct (get payload "date") as [| | | |s| |], partial; simpl;
    try discriminate.
  - intros [= <-]. split; [by intros [? [=]] | done].
  - destruct (fromisoformat s); [|discriminate]. simpl. intros [= <-].
    split; [done | eauto].
  - destruct (fromisoformat s); [|discriminate]. simpl. intros [= <-].
    split; [done | eauto].
Qed.

(** X9. The validated output has a key exactly when the key is one of the
    four business fields and the payload gives it a value other than null. *)
Theorem validated_keys_are_supplied_fields
  (fromisoformat : pystr -> option datetime)
  (payload : gmap string pyval) (partial : bool) (out : fields) :
  validate_payload fromisoformat payload partial = Ok out ->
  forall key,
    contains out key = true
    <-> key ∈ field_order /\ get payload key <> PNone.
Proof.
  rewrite validate_payload_steps.
  destruct (get_str _ _ _) as [n|] eqn:Hn; [|discriminate].
  destruct (get_donation_type _ _) as [ty|] eqn:Hty; [|discriminate].
  destruct (get_int _ _ _) as [q|] eqn:Hq; [|discriminate].
  destruct (get_date _ _ _) as [d|] eqn:Hd; [|discriminate].
  intros [= <-] key. unfold contains, field_order. simpl.
  apply get_str_some_iff in Hn. apply get_donation_type_some_iff in Hty.
  apply get_int_some_iff in Hq. apply get_date_some_iff in Hd.
  destruct (String.eqb_spec key "donor_name") as [->|N1].
  { rewrite bool_decide_eq_true, Hn. split; [|by intros [_ ?]].
    intros H. split; [apply list_elem_of_here | done]. }
  destruct (String.eqb_spec key "donation_type") as [->|N2].
  { rewrite bool_decide_eq_true, Hty. split; [|by intros [_ ?]].
    intros H. split; [|done]. apply list_elem_of_further, list_elem_of_here. }
  destruct (String.eqb_spec key "quantity_or_amount") as [->|N3].
  { rewrite bool_decide_eq_true, Hq. split; [|by intros [_ ?]].
    intros H. split; [|done].
    do 2 apply list_elem_of_further. apply list_elem_of_here. }
  destruct (String.eqb_spec key "date") as [->|N4].
  { rewrite bool_decide_eq_true, Hd. split; [|by intros [_ ?]].
    intros H. split; [|done].
    do 3 apply list_elem_of_further. apply list_elem_of_here. }
  split; [discriminate|]. intros [Hin _].
  repeat (apply elem_of_cons in Hin as [->|Hin]); try done.
  by apply elem_of_nil in Hin.
Qed.

Lemma validated_keys_are_supplied_fields_witness :
  let payload : gmap string pyval :=
    <["quantity_or_amount" := PInt 5]> (<["date" := PNone]> ∅) in
  contains (Fields None None (Some (Int 5)) None) "quantity_or_amount" = true
  /\ ("quantity_or_amount" ∈ field_order
      /\ get payload "quantity_or_amount" <> PNone)
  /\ contains (Fields None None (Some (Int 5)) None) "date" = false.
Proof.
  intros payload.
  pose proof (validated_keys_are_supplied_fields Iso.fromisoformat payload true
                (Fields None None (Some (Int 5)) None) eq_refl) as H.
  split; [reflexivity|]. split; [|reflexivity].
  by apply (H "quantity_or_amount").
Defined.

(** The validator reads only the four business fields. *)
Lemma validate_payload_fields_ext (fromisoformat : pystr -> option datetime)
  (p p' : gmap string pyval) (partial : bool) :
  (forall key, key ∈ field_order -> get p key = get p' key) ->
  validate_payload fromisoformat p partial
  = validate_payload fromisoformat p' partial.
Proof.
  intros H.
  assert (H1 : get p "donor_name" = get p' "donor_name")
    by (apply H, list_elem_of_here).
  assert (H2 : get p "donation_type" = get p' "donation_type")
    by (apply H, list_elem_of_further, list_elem_of_here).
  assert (H3 : get p "quantity_or_amount" = get p' "quantity_or_amount")
    by (apply H; do 2 apply list_elem_of_further; apply list_elem_of_here).
  assert (H4 : get p "date" = get p' "date")
    by (apply H; do 3 apply list_elem_of_further; apply list_elem_of_here).
  unfold validate_payload, get_donation_type, get_str, get_int, get_date.
  by rewrite H1, H2, H3, H4.
Qed.

(** X10. A key of the payload other than the four business fields, such as
    [id], is ignored: the validator answers as without it, so a create or an
    update answers and writes what it would without it. *)
Theorem unknown_keys_are_ignored
  (fromisoformat : pystr -> option datetime)
  (payload : gmap string pyval) (key : string) (v : pyval) :
  key ∉ field_order ->
  (forall partial,
     validate_payload fromisoformat (<[key := v]> payload) partial
     = validate_payload fromisoformat payload partial)
  /\ (forall t1 t2 tb,
        create_donation fromisoformat (Request true (<[key := v]> payload))
          t1 t2 tb
        = create_donation fromisoformat (Request true payload) t1 t2 tb)
  /\ (forall donation_id now tb,
        update_donation fromisoformat donation_id
          (Request true (<[key := v]> payload)) now tb
        = update_donation fromisoformat donation_id (Request true payload)
            now tb).
Proof.
  intros Hkey.
  assert (Hv : forall partial,
     validate_payload fromisoformat (<[key := v]> payload) partial
     = validate_payload fromisoformat payload partial).
  { intros partial. apply validate_payload_fields_ext. intros k Hk.
    unfold get. rewrite lookup_insert_ne; [done|]. by intros ->. }
  split; [exact Hv|]. split.
  - intros t1 t2 tb. unfold create_donation. simpl. by rewrite Hv.
  - intros donation_id now tb. unfold update_donation. simpl. by rewrite Hv.
Qed.

Lemma unknown_keys_are_ignored_witness :
  update_donation Iso.fromisoformat 1
    (Request true (<["id" := PInt 7]> {[ "quantity_or_amount" := PInt 5 ]}))
    9 {[ 1 := alice_row 1 ]}
  = update_donation Iso.fromisoformat 1
      (Request true {[ "quantity_or_amount" := PInt 5 ]}) 9
      {[ 1 := alice_row 1 ]}.
Proof.
  destruct (unknown_keys_are_ignored Iso.fromisoformat
              {[ "quantity_or_amount" := PInt 5 ]} "id" (PInt 7))
    as (_ & _ & H).
  - unfold field_order.
    apply not_elem_of_cons; split; [discriminate|].
    apply not_elem_of_cons; split; [discriminate|].
    apply not_elem_of_cons; split; [discriminate|].
    apply not_elem_of_cons; split; [discriminate|].
    apply not_elem_of_nil.
  - exact (H 1 9 {[ 1 := alice_row 1 ]}).
Defined.

(** X11. The handlers change the set of ids only as follows: an update
    never adds or removes a record, a delete removes at most the id it is
    given, and a create adds at most the next id.  A delete leaves the ids
    without the id it is given, in every table whose ids are within 64
    bits, as are those of every table the engine can hold; on an id beyond
    64 bits it changes nothing. *)
Theorem handlers_change_of_ids
  (fromisoformat : pystr -> option datetime) (req : request) (tb : table) :
  (forall donation_id now,
     dom (update_donation fromisoformat donation_id req now tb).2 = dom tb)
  /\ (forall donation_id,
        (forall k, k ∈ dom tb -> fits_integer k = true) ->
        dom (delete_donation donation_id tb).2 = dom tb ∖ {[ donation_id ]})
  /\ (forall donation_id,
        dom (delete_donation donation_id tb).2
        = (if fits_integer donation_id then dom tb ∖ {[ donation_id ]}
           else dom tb))
  /\ (forall t1 t2,
        dom (create_donation fromisoformat req t1 t2 tb).2
        = (if bool_decide
                (status (create_donation fromisoformat req t1 t2 tb).1 = 201)
           then {[ next_id tb ]} ∪ dom tb else dom tb)).
Proof.
  assert (Hdel : forall donation_id,
            dom (delete_donation donation_id tb).2
            = (if fits_integer donation_id then dom tb ∖ {[ donation_id ]}
               else dom tb)).
  { intros donation_id. destruct (fits_integer donation_id) eqn:Hi.
    - destruct (tb !! donation_id) eqn:Hrow.
      + rewrite (delete_donation_found _ _ _ Hi Hrow). apply dom_delete_L.
      + rewrite (delete_donation_missing _ _ Hi Hrow). simpl.
        by rewrite <- dom_delete_L, (delete_id _ _ Hrow).
    - by rewrite (delete_donation_overflow _ _ Hi). }
  split; [|split; [|split; [exact Hdel|]]].
  - intros donation_id now.
    destruct (update_donation_cases fromisoformat donation_id req now tb)
      as [(c & d & _ & ->)|(data & row & _ & _ & _ & Hrow & _ & ->)]; simpl; [done|].
    apply dom_insert_lookup_L. eauto.
  - intros donation_id Hfit. rewrite Hdel.
    destruct (fits_integer donation_id) eqn:Hi; [reflexivity|].
    symmetry. apply difference_disjoint_L, disjoint_singleton_r.
    intros Hin. apply Hfit in Hin. congruence.
  - intros t1 t2.
    destruct (create_donation_cases fromisoformat req t1 t2 tb)
      as [(c0 & d & [->| ->] & ->)|(n & ty & q & d & _ & _ & _ & _ & ->)];
      simpl; [done|done|].
    apply dom_insert_L.
Qed.

Lemma handlers_change_of_ids_witness :
  (forall k, k ∈ dom ({[ 1 := alice_row 1 ]} : table) ->
             fits_integer k = true)
  /\ dom (delete_donation (2 ^ 63) {[ 1 := alice_row 1 ]}).2
     = dom ({[ 1 := alice_row 1 ]} : table) ∖ {[ 2 ^ 63 ]}.
Proof.
  assert (Hfit : forall k, k ∈ dom ({[ 1 := alice_row 1 ]} : table) ->
                           fits_integer k = true).
  { intros k Hk. apply elem_of_dom in Hk as [r Hr].
    apply lookup_singleton_Some in Hr as [<- _]. reflexivity. }
  split; [exact Hfit|].
  destruct (handlers_change_of_ids Iso.fromisoformat (alice "2024-01-15")
              {[ 1 := alice_row 1 ]}) as (_ & Hdel & _).
  exact (Hdel (2 ^ 63) Hfit).
Defined.

(** ** Stored names, and sending a record back *)

Lemma validate_payload_name_clean
  (fromisoformat : pystr -> option datetime)
  (payload : gmap string pyval) (partial : bool) (out : fields) (n : pystr) :
  validate_payload fromisoformat payload partial = Ok out ->
  out_donor_name out = Some n -> n <> [] /\ strip n = n.
Proof.
  rewrite validate_payload_steps.
  destruct (get_str _ _ _) as [r|] eqn:Hn; [|discriminate].
  destruct (get_donation_type _ _); [|discriminate].
  destruct (get_int _ _ _); [|discriminate].
  destruct (get_date _ _ _); [|discriminate].
  intros [= <-]. simpl. intros ->. by apply get_str_clean in Hn.
Qed.

Lemma name_ok_step (fromisoformat : pystr -> option datetime) (o : op)
  (tb : table) :
  (forall k r, tb !! k = Some r -> name_ok r) ->
  forall k r, (step fromisoformat o tb).2 !! k = Some r -> name_ok r.
Proof.
  intros H. destruct o as [req t1 t2|donation_id req now|donation_id]; simpl.
  - destruct (create_donation_cases fromisoformat req t1 t2 tb)
      as [(c0 & d & _ & ->)|(n & ty & q & d & _ & Hv & _ & _ & ->)]; simpl; [done|].
    intros k r. destruct (decide (k = next_id tb)) as [->|Hne].
    + rewrite lookup_insert_eq. intros [= <-]. unfold name_ok. simpl.
      by apply (validate_payload_name_clean _ _ _ _ n Hv).
    + rewrite lookup_insert_ne by done. apply H.
  - destruct (update_donation_cases fromisoformat donation_id req now tb)
      as [(c & d & _ & ->)|(data & row & _ & Hv & _ & Hrow & _ & ->)]; simpl; [done|].
    intros k r. destruct (decide (k = donation_id)) as [->|Hne].
    + rewrite lookup_insert_eq. intros [= <-]. unfold name_ok. simpl.
      destruct (apply_fields_columns data row) as (_ & _ & _ & -> & _).
      destruct (out_donor_name data) as [n|] eqn:Hn; simpl.
      * by apply (validate_payload_name_clean _ _ _ _ n Hv).
      * exact (H _ _ Hrow).
    + rewrite lookup_insert_ne by done. apply H.
  - destruct (delete_donation_cases donation_id tb)
      as [(c0 & d0 & _ & ->)|(row0 & _ & _ & ->)]; simpl; [done|].
    intros k r Hr. apply lookup_delete_Some in Hr as [_ Hr]. exact (H k r Hr).
Qed.

Lemma reachable_name_ok (fromisoformat : pystr -> option datetime)
  (tb : table) :
  reachable fromisoformat tb ->
  forall k r, tb !! k = Some r -> name_ok r.
Proof.
  apply (reachable_invariant fromisoformat
           (fun tb => forall k r, tb !! k = Some r -> name_ok r)).
  - intros k r. by rewrite lookup_empty.
  - intros o tb0. apply name_ok_step.
Qed.

(** The store holds what it was able to bind: names with a UTF-8 encoding
    and quantities within 64 bits. *)
Lemma bound_values_step (fromisoformat : pystr -> option datetime) (o : op)
  (tb : table) :
  (forall k r, tb !! k = Some r ->
     encodable (Donation.donor_name r) = true
     /\ fits_integer (Donation.quantity_or_amount r) = true) ->
  forall k r, (step fromisoformat o tb).2 !! k = Some r ->
    encodable (Donation.donor_name r) = true
    /\ fits_integer (Donation.quantity_or_amount r) = true.
Proof.
  intros H. destruct o as [req t1 t2|donation_id req now|donation_id]; simpl.
  - destruct (create_donation_cases fromisoformat req t1 t2 tb)
      as [(c & d & _ & ->)|(n & ty & q & d & _ & _ & Hs & _ & ->)]; simpl;
      [done|].
    intros k r. destruct (decide (k = next_id tb)) as [->|Hne].
    + rewrite lookup_insert_eq. intros [= <-]. simpl.
      unfold storable in Hs. simpl in Hs.
      apply andb_true_iff in Hs as [Hs Hq].
      apply andb_true_iff in Hs as [Hn _]. by split.
    + rewrite lookup_insert_ne by done. apply H.
  - destruct (update_donation_cases fromisoformat donation_id req now tb)
      as [(c & d & _ & ->)|(data & row & _ & _ & _ & Hrow & Hs & ->)]; simpl;
      [done|].
    intros k r. destruct (decide (k = donation_id)) as [->|Hne].
    + rewrite lookup_insert_eq. intros [= <-]. simpl.
      destruct (apply_fields_columns data row)
        as (_ & _ & _ & -> & _ & -> & _).
      destruct (H _ _ Hrow) as [Rn Rq].
      unfold storable in Hs.
      apply andb_true_iff in Hs as [Hs Hq].
      apply andb_true_iff in Hs as [Hn _].
      split.
      * by destruct (out_donor_name data).
      * by destruct (out_quantity_or_amount data).
    + rewrite lookup_insert_ne by done. apply H.
  - destruct (delete_donation_cases donation_id tb)
      as [(c & d & _ & ->)|(row & _ & _ & ->)]; simpl; [done|].
    intros k r Hr. apply lookup_delete_Some in Hr as [_ Hr]. exact (H k r Hr).
Qed.

Lemma reachable_bound_values (fromisoformat : pystr -> option datetime)
  (tb : table) :
  reachable fromisoformat tb ->
  forall k r, tb !! k = Some r ->
    encodable (Donation.donor_name r) = true
    /\ fits_integer (Donation.quantity_or_amount r) = true.
Proof.
  apply (reachable_invariant fromisoformat
           (fun tb => forall k r, tb !! k = Some r ->
              encodable (Donation.donor_name r) = true
              /\ fits_integer (Donation.quantity_or_amount r) = true)).
  - intros k r. by rewrite lookup_empty.
  - intros o tb0. apply bound_values_step.
Qed.

(** X12. In every table reached from the empty table, the name of each
    record is not empty and has no whitespace at either end. *)
Theorem stored_names_are_trimmed
  (fromisoformat : pystr -> option datetime) (tb : table) :
  reachable fromisoformat tb ->
  forall k r, tb !! k = Some r ->
    Donation.donor_name r <> []
    /\ trimmed (Donation.donor_name r) (Donation.donor_name r).
Proof.
  intros Hreach k r Hr.
  destruct (reachable_name_ok fromisoformat tb Hreach k r Hr) as [Hne Hs].
  split; [exact Hne|]. rewrite <- Hs at 2. apply strip_trimmed.
Qed.

Lemma stored_names_are_trimmed_witness :
  let tb : table :=
    (create_donation Iso.fromisoformat
       (Request true
          (<["donor_name" := PStr (u "  Alice ")]>
             (get_json (alice "2024-01-15")))) 3 4 ∅).2 in
  tb !! 1 = Some (Donation.Row 1 (u "Alice") (u "food") 3 (Date 2024 1 15) 3 4)
  /\ u "Alice" <> []
  /\ trimmed (u "Alice") (u "Alice").
Proof.
  intros tb.
  assert (Hreach : reachable Iso.fromisoformat tb).
  { apply reach_create, reach_init. }
  split; [reflexivity|].
  exact (stored_names_are_trimmed Iso.fromisoformat tb Hreach 1
           (Donation.Row 1 (u "Alice") (u "food") 3 (Date 2024 1 15) 3 4)
           eq_refl).
Defined.

(** A payload whose four fields are valid is validated to the stripped
    name and type, the integer, and the date of the parsed string. *)
Lemma validate_payload_valid (fromisoformat : pystr -> option datetime)
  (payload : gmap string pyval) (partial : bool)
  (s1 s2 s : pystr) (z : Z) (dt : datetime) :
  get payload "donor_name" = PStr s1 -> strip s1 <> [] ->
  get payload "donation_type" = PStr s2 -> strip s2 ∈ allowed_types ->
  get payload "quantity_or_amount" = PInt z -> 1 <= z ->
  get payload "date" = PStr s -> fromisoformat s = Some dt ->
  validate_payload fromisoformat payload partial
  = Ok (Fields (Some (strip s1)) (Some (strip s2)) (Some (Int z))
               (Some (datetime_date dt))).
Proof.
  intros H1 N1 H2 N2 H3 N3 H4 N4.
  unfold validate_payload, get_donation_type, get_str, get_int, get_date,
    parse_iso_date.
  rewrite H1, H2, H3, H4. simpl. rewrite N4.
  destruct (strip s1) eqn:E1; [done|]. simpl.
  destruct (strip s2) eqn:E2.
  { unfold allowed_types in N2.
    repeat (apply elem_of_cons in N2 as [N2|N2]); try discriminate.
    by apply elem_of_nil in N2. }
  simpl. rewrite bool_decide_eq_true_2 by done.
  destruct (Z.ltb_spec z 1); [lia|]. reflexivity.
Qed.

(** Whitespace is not a surrogate, so stripping keeps a string
    encodable, and an encodable strip means an encodable string. *)
Lemma isspace_not_surrogate (c : N) :
  isspace c = true -> is_surrogate c = false.
Proof.
  intros H. unfold is_surrogate.
  destruct (N.leb_spec 55296 c) as [Hc|Hc]; [|reflexivity].
  exfalso. revert H. unfold isspace.
  repeat match goal with
         | |- context [(?a <=? ?b)%N] => destruct (N.leb_spec a b); try lia
         | |- context [(?a =? ?b)%N] => destruct (N.eqb_spec a b); try lia
         end.
  all: simpl; discriminate.
Qed.

Lemma encodable_whitespace (l : pystr) :
  Forall whitespace l -> encodable l = true.
Proof.
  induction 1 as [|c l Hc _ IH]; [reflexivity|].
  unfold encodable in *. simpl.
  by rewrite (isspace_not_surrogate c Hc), IH.
Qed.

Lemma encodable_strip (s : pystr) : encodable (strip s) = encodable s.
Proof.
  destruct (strip_trimmed s) as (l & r & Hs & Hl & Hr & _).
  rewrite Hs at 2. unfold encodable. rewrite !forallb_app.
  fold (encodable l). fold (encodable r).
  rewrite (encodable_whitespace l Hl), (encodable_whitespace r Hr).
  simpl. by rewrite andb_true_r.
Qed.

(** X13. A create whose payload has four valid fields that the store can
    hold, a name without surrogate code points and a quantity of at most
    2^63 - 1, in a table whose next id is within 64 bits, answers 201 with,
    and stores under the next id, the stripped name, the stripped type, the
    quantity, and the date of the parsed string; [created_at] and
    [updated_at] are the two readings of the clock, in that order. *)
Theorem create_stores_validated_input
  (fromisoformat : pystr -> option datetime)
  (req : request) (t1 t2 : Z) (tb : table)
  (s1 s2 s : pystr) (z : Z) (dt : datetime) :
  is_json req = true ->
  get (get_json req) "donor_name" = PStr s1 -> strip s1 <> [] ->
  encodable s1 = true ->
  get (get_json req) "donation_type" = PStr s2 -> strip s2 ∈ allowed_types ->
  get (get_json req) "quantity_or_amount" = PInt z -> 1 <= z <= 2 ^ 63 - 1 ->
  get (get_json req) "date" = PStr s -> fromisoformat s = Some dt ->
  fits_integer (next_id tb) = true ->
  create_donation fromisoformat req t1 t2 tb
  = (Response 201
       (Json (Donation.Dict (next_id tb) (strip s1) (strip s2) z
                            (isoformat (datetime_date dt)))),
     <[next_id tb :=
         Donation.Row (next_id tb) (strip s1) (strip s2) z (datetime_date dt)
                      t1 t2]> tb).
Proof.
  intros Hj H1 N1 E1 H2 N2 H3 N3 H4 N4 Hi.
  apply (create_donation_valid fromisoformat req t1 t2 tb
           (strip s1) (strip s2) (Int z) (datetime_date dt) Hj).
  - apply (validate_payload_valid fromisoformat (get_json req) false
             s1 s2 s z dt H1 N1 H2 N2 H3 (proj1 N3) H4 N4).
  - unfold storable. simpl.
    rewrite encodable_strip, E1, (allowed_types_encodable _ N2). simpl.
    unfold fits_integer. apply andb_true_iff. split; apply Z.leb_le; lia.
  - exact Hi.
Qed.

Lemma create_stores_validated_input_witness :
  create_donation Iso.fromisoformat
    (Request true
       (<["donor_name" := PStr (u " Bob ")]>
          (get_json (alice "2024-02-29T08:30:00")))) 5 6 {[ 3 := alice_row 3 ]}
  = (Response 201
       (Json (Donation.Dict 4 (u "Bob") (u "food") 3 (u "2024-02-29"))),
     <[4 := Donation.Row 4 (u "Bob") (u "food") 3 (Date 2024 2 29) 5 6]>
       {[ 3 := alice_row 3 ]}).
Proof.
  set (req := Request true
                (<["donor_name" := PStr (u " Bob ")]>
                   (get_json (alice "2024-02-29T08:30:00")))).
  assert (H1 : get (get_json req) "donor_name" = PStr (u " Bob "))
    by (vm_compute; reflexivity).
  assert (H2 : get (get_json req) "donation_type" = PStr (u "food"))
    by (vm_compute; reflexivity).
  assert (H3 : get (get_json req) "quantity_or_amount" = PInt 3)
    by (vm_compute; reflexivity).
  assert (H4 : get (get_json req) "date" = PStr (u "2024-02-29T08:30:00"))
    by (vm_compute; reflexivity).
  assert (Hne : strip (u " Bob ") <> []) by (vm_compute; discriminate).
  assert (Hin : strip (u "food") ∈ allowed_types).
  { vm_compute. apply list_elem_of_further, list_elem_of_here. }
  assert (Hle : 1 <= 3 <= 2 ^ 63 - 1) by lia.
  assert (Hp : Iso.fromisoformat (u "2024-02-29T08:30:00")
               = Some (Datetime (Date 2024 2 29) 8 30 0 0 None))
    by (vm_compute; reflexivity).
  assert (Hi : fits_integer (next_id {[ 3 := alice_row 3 ]}) = true)
    by (vm_compute; reflexivity).
  rewrite (create_stores_validated_input Iso.fromisoformat req 5 6
             {[ 3 := alice_row 3 ]}
             (u " Bob ") (u "food") (u "2024-02-29T08:30:00") 3
             (Datetime (Date 2024 2 29) 8 30 0 0 None)
             eq_refl H1 Hne eq_refl H2 Hin H3 Hle H4 Hp Hi).
  vm_compute. reflexivity.
Defined.

Lemma apply_fields_own (row : Donation.t) :
  apply_fields
    (Fields (Some (Donation.donor_name row)) (Some (Donation.donation_type row))
            (Some (Int (Donation.quantity_or_amount row)))
            (Some (Donation.date row))) row
  = row.
Proof. by destruct row. Qed.

(** X14. In a table reached from the empty table, an update of a record
    whose body is the record's own JSON object, as a response or the listing
    shows it, answers with the same object and changes nothing of the record
    but [updated_at], provided the parser reads back the date that
    [isoformat] wrote. *)
Theorem update_with_own_record
  (fromisoformat : pystr -> option datetime)
  (tb : table) (donation_id : Z) (row : Donation.t)
  (now : Z) (dt : datetime) :
  reachable fromisoformat tb ->
  tb !! donation_id = Some row ->
  fromisoformat (isoformat (Donation.date row)) = Some dt ->
  datetime_date dt = Donation.date row ->
  update_donation fromisoformat donation_id
    (Request true (as_payload (Donation.to_dict row))) now tb
  = (Response 200 (Json (Donation.to_dict row)),
     <[donation_id := Donation.set_updated_at now row]> tb).
Proof.
  intros Hreach Hrow Hdt Hd.
  destruct (reachable_row_valid fromisoformat tb Hreach _ _ Hrow)
    as [Hq Hty].
  destruct (reachable_name_ok fromisoformat tb Hreach _ _ Hrow)
    as [Hne Hs].
  destruct (reachable_bound_values fromisoformat tb Hreach _ _ Hrow)
    as [Hen Hfit].
  destruct (reachable_ids_in_range fromisoformat tb Hreach donation_id
              (ex_intro _ row Hrow)) as [_ Hi].
  assert (Hv : validate_payload fromisoformat
                 (as_payload (Donation.to_dict row)) true
               = Ok (Fields (Some (Donation.donor_name row))
                            (Some (Donation.donation_type row))
                            (Some (Int (Donation.quantity_or_amount row)))
                            (Some (Donation.date row)))).
  { rewrite (validate_payload_valid fromisoformat _ true
               (Donation.donor_name row) (Donation.donation_type row)
               (isoformat (Donation.date row))
               (Donation.quantity_or_amount row) dt);
      try reflexivity; try done.
    - by rewrite Hs, (allowed_types_stripped _ Hty), Hd.
    - by rewrite Hs.
    - by rewrite (allowed_types_stripped _ Hty). }
  rewrite (update_donation_found fromisoformat donation_id
             (Request true (as_payload (Donation.to_dict row))) now tb _ row
             eq_refl Hv Hi Hrow).
  - by rewrite apply_fields_own.
  - unfold storable. simpl.
    by rewrite Hen, (allowed_types_encodable _ Hty), Hfit.
Qed.

Lemma update_with_own_record_witness :
  let tb : table :=
    (create_donation Iso.fromisoformat (alice "2024-01-15") 3 4 ∅).2 in
  let row := Donation.Row 1 (u "Alice") (u "food") 3 (Date 2024 1 15) 3 4 in
  update_donation Iso.fromisoformat 1
    (Request true (as_payload (Donation.to_dict row))) 9 tb
  = (Response 200 (Json (Donation.to_dict row)),
     <[1 := Donation.set_updated_at 9 row]> tb).
Proof.
  intros tb row.
  assert (Hreach : reachable Iso.fromisoformat tb).
  { apply reach_create, reach_init. }
  exact (update_with_own_record Iso.fromisoformat tb 1 row 9
           (Datetime (Date 2024 1 15) 0 0 0 0 None)
           Hreach eq_refl eq_refl eq_refl).
Defined.


(** ** The contract of the validator, field by field *)

Lemma lstrip_whitespace_app (l x : pystr) :
  Forall whitespace l -> lstrip (l ++ x) = lstrip x.
Proof.
  induction 1 as [|c l Hc _ IH]; simpl; [reflexivity|].
  unfold whitespace in Hc. by rewrite Hc.
Qed.

Lemma rstrip_app_whitespace (x r : pystr) :
  Forall whitespace r -> rstrip (x ++ r) = rstrip x.
Proof.
  intros H. unfold rstrip. rewrite reverse_app.
  rewrite lstrip_whitespace_app; [reflexivity|]. by apply Forall_reverse.
Qed.

(** [strip] is the only trimming of a string. *)
Lemma trimmed_strip (s t : pystr) : trimmed s t -> strip s = t.
Proof.
  intros (l & r & -> & Hl & Hr & Hh & Hla).
  unfold strip. rewrite (lstrip_whitespace_app l _ Hl).
  destruct t as [|c t].
  - simpl. by rewrite (proj2 (lstrip_nil r) Hr).
  - rewrite (lstrip_fixed ((c :: t) ++ r)).
    + rewrite (rstrip_app_whitespace _ r Hr). by apply rstrip_fixed.
    + simpl. intros c' [= <-]. by apply Hh.
Qed.


Lemma valid_donation_type_strip (s : pystr) :
  valid_donation_type (PStr s) <-> strip s ∈ allowed_types.
Proof.
  split.
  - intros (s' & ty & [= <-] & Hty & Ht). by rewrite (trimmed_strip _ _ Ht).
  - intros H. exists s, (strip s). repeat split; [done|apply strip_trimmed].
Qed.

Lemma valid_donation_type_nonblank (s : pystr) :
  valid_donation_type (PStr s) -> nonblank s.
Proof.
  rewrite valid_donation_type_strip. intros H.
  apply strip_nonempty. intros E. rewrite E in H.
  unfold allowed_types in H.
  repeat (apply elem_of_cons in H as [H|H]; [discriminate|]).
  by apply elem_of_nil in H.
Qed.


Section Contract.

Variable fromisoformat : pystr -> option datetime.
Variable payload : gmap string pyval.
Variable partial : bool.






End Contract.



(** ** When a request is accepted *)





